(** * solvminstaller: the installer of main.go, embedded and verified

    The program is one orchestration script: it asks the release API for the
    list of releases, picks the asset of the host platform, downloads it into
    the per-user install directory, renames it to its final name and, when the
    user agrees, registers the directory on the shell search path.

    Everything the program does is an effect, so the embedding is a state
    monad over a [World] (standard input, files, and the trace of the calls
    made to the operating system), with [os.Exit] as an early exit.  What the
    outside decides (the answer of the server, whether a system call fails)
    is read from the [Host] part of the world, which a run never changes. *)

From Stdlib Require Import Ascii NArith ZArith Lia.
From stdpp Require Import base list strings gmap.

Local Open Scope Z_scope.

(** ** Strings: the functions of packages [strings] and [fmt] that main.go uses *)

Definition nl : string := String "010"%char "".
Definition dquote : string := String "034"%char "".

(** strings.HasPrefix and strings.Contains, on bytes. *)
Fixpoint HasPrefix (s prefix : string) : bool :=
  match prefix, s with
  | EmptyString, _ => true
  | String _ _, EmptyString => false
  | String p prefix', String c s' => Ascii.eqb c p && HasPrefix s' prefix'
  end.

Fixpoint Contains (s substr : string) : bool :=
  HasPrefix s substr ||
  match s with
  | EmptyString => false
  | String _ s' => Contains s' substr
  end.

(** The white space of strings.TrimSpace (unicode.IsSpace).  In ASCII: tab,
    line feed, vertical tab, form feed, carriage return and space. *)
Definition isSpace (c : ascii) : bool :=
  let n := N_of_ascii c in
  ((9 <=? n) && (n <=? 13) || (n =? 32))%N.

(** Beyond ASCII, as the bytes of UTF-8: U+0085 and U+00A0 (C2 85, C2 A0);
    U+1680 (E1 9A 80); U+2000 to U+200A, U+2028, U+2029, U+202F
    (E2 80 80..8A, A8, A9, AF); U+205F (E2 81 9F); U+3000 (E3 80 80). *)
Definition isSpace2 (c1 c2 : ascii) : bool :=
  let n1 := N_of_ascii c1 in
  let n2 := N_of_ascii c2 in
  ((n1 =? 194) && ((n2 =? 133) || (n2 =? 160)))%N.

Definition isSpace3 (c1 c2 c3 : ascii) : bool :=
  let n1 := N_of_ascii c1 in
  let n2 := N_of_ascii c2 in
  let n3 := N_of_ascii c3 in
  ((n1 =? 225) && (n2 =? 154) && (n3 =? 128)
   || (n1 =? 226) && (n2 =? 128)
      && ((128 <=? n3) && (n3 <=? 138) || (n3 =? 168) || (n3 =? 169) || (n3 =? 175))
   || (n1 =? 226) && (n2 =? 129) && (n3 =? 159)
   || (n1 =? 227) && (n2 =? 128) && (n3 =? 128))%N.

(** The white space at the head of a string is taken off rune by rune.  A
    rune of white space is one of the byte sequences above: at the head of a
    string Go decodes exactly these as white space, and a string ends with
    one of them exactly when its last rune is white space, since each begins
    with a byte that starts a rune.  [backwards] says that the string is
    read from its end, so that the bytes of a rune come last first. *)
Fixpoint trimSpaces (backwards : bool) (s : string) : string :=
  match s with
  | EmptyString => EmptyString
  | String a s1 =>
      if isSpace a then trimSpaces backwards s1
      else
        match s1 with
        | EmptyString => s
        | String b s2 =>
            if (if backwards then isSpace2 b a else isSpace2 a b)
            then trimSpaces backwards s2
            else
              match s2 with
              | EmptyString => s
              | String c s3 =>
                  if (if backwards then isSpace3 c b a else isSpace3 a b c)
                  then trimSpaces backwards s3
                  else s
              end
        end
  end.

Fixpoint reverseOnto (s acc : string) : string :=
  match s with
  | EmptyString => acc
  | String c s' => reverseOnto s' (String c acc)
  end.

Definition reverse (s : string) : string := reverseOnto s EmptyString.

Definition TrimLeft (s : string) : string := trimSpaces false s.

Definition TrimRight (s : string) : string :=
  reverse (trimSpaces true (reverse s)).

Definition TrimSpace (s : string) : string := TrimRight (TrimLeft s).

(** strings.ToLower on ASCII letters.  The only other runes that Go lowers
    into ASCII are U+212A and U+0130, which give k and i: neither occurs in
    the words the installer compares with. *)
Definition lower (c : ascii) : ascii :=
  let n := N_of_ascii c in
  if ((65 <=? n) && (n <=? 90))%N then ascii_of_N (n + 32) else c.

Fixpoint ToLower (s : string) : string :=
  match s with
  | EmptyString => EmptyString
  | String c s' => String (lower c) (ToLower s')
  end.

(** fmt.Sprintf for the two verbs of main.go, %s and %v, on operands that are
    already text (an error is printed by %v as its message).  A verb with no
    operand left prints as Go does, %!s(MISSING); every call of main.go has as
    many operands as verbs. *)
Fixpoint Sprintf (format : string) (args : list string) : string :=
  match format with
  | EmptyString => EmptyString
  | String c rest =>
      if Ascii.eqb c "%" then
        match rest with
        | String v rest' =>
            if Ascii.eqb v "s" || Ascii.eqb v "v" then
              match args with
              | a :: args' => a +:+ Sprintf rest' args'
              | [] => "%!" +:+ String v "(MISSING)" +:+ Sprintf rest' []
              end
            else if Ascii.eqb v "%" then String "%" (Sprintf rest' args)
            else String c (Sprintf rest args)
        | EmptyString => "%!(NOVERB)"
        end
      else String c (Sprintf rest args)
  end.

(** Package path/filepath.  On windows both slashes separate, the result
    is written with backslashes, and a drive (a byte and a colon) heads the
    path as its volume; volumes of other kinds (a share \\host\share, a
    device) are not told apart from directories. *)
Definition Separator (goos : string) : string :=
  if String.eqb goos "windows" then "\" else "/".

Definition isSlash (goos : string) (c : ascii) : bool :=
  Ascii.eqb c "/" || (String.eqb goos "windows" && Ascii.eqb c "\").

Definition volumeName (goos path : string) : string * string :=
  if String.eqb goos "windows" then
    match path with
    | String c1 (String c2 rest) =>
        if Ascii.eqb c2 ":" then (String c1 (String c2 EmptyString), rest)
        else (EmptyString, path)
    | _ => (EmptyString, path)
    end
  else (EmptyString, path).

(** filepath.Clean, element by element.  [kept] holds the elements kept so
    far, the last one first: an empty element or a dot is dropped; two dots
    take back the element before, or stay when there is none to take back
    and the path is not rooted. *)
Definition keep (rooted : bool) (kept : list string) (element : string) : list string :=
  if String.eqb element "" || String.eqb element "." then kept
  else if String.eqb element ".." then
    match kept with
    | top :: below => if String.eqb top ".." then element :: kept else below
    | [] => if rooted then [] else [element]
    end
  else element :: kept.

Fixpoint scan (goos : string) (rooted : bool) (kept : list string) (cur s : string)
  : list string * string :=
  match s with
  | EmptyString => (kept, cur)
  | String c s' =>
      if isSlash goos c then scan goos rooted (keep rooted kept cur) EmptyString s'
      else scan goos rooted kept (cur +:+ String c EmptyString) s'
  end.

Fixpoint joinElements (sep : string) (elements : list string) : string :=
  match elements with
  | [] => EmptyString
  | e :: rest =>
      match rest with
      | [] => e
      | _ => e +:+ sep +:+ joinElements sep rest
      end
  end.

Definition Clean (goos path : string) : string :=
  let '(volume, rest) := volumeName goos path in
  let rooted :=
    match rest with
    | String c _ => isSlash goos c
    | EmptyString => false
    end in
  let '(kept, cur) := scan goos rooted [] EmptyString rest in
  match rev (keep rooted kept cur) with
  | [] => volume +:+ (if rooted then Separator goos else ".")
  | elements =>
      volume +:+ (if rooted then Separator goos else "") +:+
      joinElements (Separator goos) elements
  end.

Fixpoint lastChar (s : string) : option ascii :=
  match s with
  | EmptyString => None
  | String c s' =>
      match lastChar s' with
      | None => Some c
      | last => last
      end
  end.

Fixpoint stripSlashes (goos s : string) : string :=
  match s with
  | EmptyString => EmptyString
  | String c s' => if isSlash goos c then stripSlashes goos s' else s
  end.

(** filepath.Join of a directory and a name: empty elements are left out,
    the others are joined by the separator, and the result is cleaned.  On
    windows no separator is added after a directory that ends in a slash
    (the slashes at the head of the name are then dropped) or in a colon. *)
Definition Join (goos dir name : string) : string :=
  if String.eqb dir "" then
    if String.eqb name "" then EmptyString else Clean goos name
  else if String.eqb name "" then Clean goos dir
  else if String.eqb goos "windows" then
    match lastChar dir with
    | Some c =>
        if isSlash goos c then Clean goos (dir +:+ stripSlashes goos name)
        else if Ascii.eqb c ":" then Clean goos (dir +:+ name)
        else Clean goos (dir +:+ "\" +:+ name)
    | None => Clean goos name
    end
  else Clean goos (dir +:+ "/" +:+ name).

(** ** Data model (main.go:19-27) *)

Record Asset := mkAsset {
  Name : string;
  BrowserDownloadURL : string
}.

Record Release := mkRelease {
  TagName : string;
  Assets : list Asset
}.

(** A Go error is its message. *)
Definition error := string.

(** A Go result [(T, error)]. *)
Inductive result (A : Type) : Type :=
| Ok (a : A)
| Err (e : error).
Arguments Ok {A} a.
Arguments Err {A} e.

(** ** The world *)

Inductive colour := Plain | Cyan | Red | Green | Yellow.

(** The calls a run makes to the outside, as the trace records them. *)
Inductive syscall :=
| SysPrint (c : colour) (text : string)
| SysHttpGet (url : string)
| SysStat (path : string)
| SysMkdirAll (path : string) (perm : N)
| SysCreate (path : string)
| SysOpenAppend (path : string)
| SysWrite (path : string) (data : string)
| SysRename (oldpath newpath : string)
| SysChmod (path : string) (perm : N)
| SysExec (argv : list string).

(** An HTTP response: status, declared length, the bytes of the body that
    arrive, and the error that ends the stream if it breaks. *)
Record Response := mkResponse {
  StatusCode : Z;
  Status : string;
  ContentLength : Z;
  Body : string;
  BodyErr : option error
}.

Record File := mkFile {
  data : string;
  mode : N
}.

(** What the outside decides.  Calls are numbered by their position in the
    trace, so the same call may succeed once and fail later. *)
Record Host := mkHost {
  GOOS : string;                               (* runtime.GOOS *)
  GOARCH : string;                             (* runtime.GOARCH *)
  Getenv : string -> string;                   (* os.Getenv *)
  UserHomeDir : result string;                 (* os.UserHomeDir() *)
  http : nat -> string -> result Response;     (* the answer to the n-th call, a GET *)
  decode : Response -> result (list Release);  (* json decoding of a body *)
  fails : nat -> syscall -> option error;      (* the n-th call fails for an outside reason *)
  written : nat -> nat;                        (* bytes that got through when the n-th call, a write, failed *)
  umask : N                                    (* the mode bits the process withholds from new files *)
}.

Record World := mkWorld {
  host : Host;
  stdin : list string;        (* what each read of standard input will return *)
  fs : gmap string File;      (* regular files by path *)
  trace : list syscall        (* calls made so far, oldest first *)
}.

Definition set_stdin (i : list string) (w : World) : World :=
  mkWorld (host w) i (fs w) (trace w).
Definition set_fs (f : gmap string File) (w : World) : World :=
  mkWorld (host w) (stdin w) f (trace w).
Definition log (c : syscall) (w : World) : World :=
  mkWorld (host w) (stdin w) (fs w) (trace w ++ [c]).

(** ** The monad: state passing over the world, [inr code] after os.Exit(code) *)

Definition Go (A : Type) : Type := World -> (A + Z) * World.

Definition ret {A} (a : A) : Go A := fun w => (inl a, w).

Definition bind {A B} (m : Go A) (k : A -> Go B) : Go B :=
  fun w =>
    match m w with
    | (inl a, w') => k a w'
    | (inr code, w') => (inr code, w')
    end.

Definition os_Exit {A} (code : Z) : Go A := fun w => (inr code, w).

(** The notations [x ← m; k] and [m;; k] are those of stdpp's monads. *)
#[global] Instance Go_ret : MRet Go := @ret.
#[global] Instance Go_bind : MBind Go := fun A B k m => bind m k.

(** The exit code of a run: 0 when main returns. *)
Definition exit_code {A} (r : A + Z) : Z :=
  match r with inl _ => 0 | inr code => code end.

(** ** System calls *)

(** Every call is appended to the trace; its number is the length of the
    trace before it. *)
Definition sys (c : syscall) : Go (option error) :=
  fun w => (inl (fails (host w) (length (trace w)) c), log c w).

Definition Print (c : colour) (text : string) : Go unit :=
  fun w => (inl tt, log (SysPrint c text) w).

Definition http_Get (url : string) : Go (result Response) :=
  fun w => (inl (http (host w) (length (trace w)) url), log (SysHttpGet url) w).

Definition getHost : Go Host := fun w => (inl (host w), w).
Definition getFs : Go (gmap string File) := fun w => (inl (fs w), w).
Definition putFs (f : gmap string File) : Go unit := fun w => (inl tt, set_fs f w).

Definition ENOENT (op path : string) : error :=
  op +:+ " " +:+ path +:+ ": no such file or directory".

Definition os_Stat (path : string) : Go (result unit) :=
  e ← sys (SysStat path);
  f ← getFs;
  match e, f !! path with
  | Some e, _ => ret (Err e)
  | None, None => ret (Err (ENOENT "stat" path))
  | None, Some _ => ret (Ok tt)
  end.

(** Directories are not part of [fs]: os.MkdirAll succeeds unless the host
    makes it fail. *)
Definition os_MkdirAll (path : string) (perm : N) : Go (result unit) :=
  e ← sys (SysMkdirAll path perm);
  match e with
  | Some e => ret (Err e)
  | None => ret (Ok tt)
  end.

(** os.Create: an existing file is truncated and keeps its mode; a new one
    gets mode 0666 (438) less the bits of the umask. *)
Definition os_Create (path : string) : Go (result unit) :=
  e ← sys (SysCreate path);
  f ← getFs;
  h ← getHost;
  match e with
  | Some e => mret (Err e)
  | None =>
      let m := match f !! path with
               | Some old => mode old
               | None => N.ldiff 438 (umask h)
               end in
      putFs (<[path := mkFile "" m]> f);; mret (Ok tt)
  end.

(** os.OpenFile(path, O_APPEND|O_WRONLY, _): no O_CREATE, the file must exist. *)
Definition os_OpenAppend (path : string) : Go (result unit) :=
  e ← sys (SysOpenAppend path);
  f ← getFs;
  match e, f !! path with
  | Some e, _ => ret (Err e)
  | None, None => ret (Err (ENOENT "open" path))
  | None, Some _ => ret (Ok tt)
  end.

Definition append_data (path text : string) (f : gmap string File) : gmap string File :=
  match f !! path with
  | Some old => <[path := mkFile (data old +:+ text) (mode old)]> f
  | None => f
  end.

(** A write at the end of an open file.  When it fails, the bytes that got
    through stay in the file. *)
Definition file_Write (path text : string) : Go (result unit) :=
  h ← getHost;
  n ← (fun w => (inl (length (trace w)), w));
  e ← sys (SysWrite path text);
  f ← getFs;
  match e with
  | Some e =>
      putFs (append_data path (String.substring 0 (written h n) text) f);;
      ret (Err e)
  | None => putFs (append_data path text f);; ret (Ok tt)
  end.

Definition os_Rename (oldpath newpath : string) : Go (result unit) :=
  e ← sys (SysRename oldpath newpath);
  f ← getFs;
  match e, f !! oldpath with
  | Some e, _ => ret (Err e)
  | None, None => ret (Err (ENOENT "rename" oldpath))
  | None, Some x => putFs (<[newpath := x]> (delete oldpath f));; ret (Ok tt)
  end.

Definition os_Chmod (path : string) (perm : N) : Go (result unit) :=
  e ← sys (SysChmod path perm);
  f ← getFs;
  match e, f !! path with
  | Some e, _ => ret (Err e)
  | None, None => ret (Err (ENOENT "chmod" path))
  | None, Some x => putFs (<[path := mkFile (data x) perm]> f);; ret (Ok tt)
  end.

(** exec.Command(argv...).Run().  What the command itself does to the
    machine is outside the model. *)
Definition exec_Run (argv : list string) : Go (result unit) :=
  e ← sys (SysExec argv);
  match e with
  | Some e => ret (Err e)
  | None => ret (Ok tt)
  end.

(** bufio.Reader.ReadString('\n') over standard input.  [buf] is what the
    reader has buffered and not yet handed out.  A read of standard input
    returns the next chunk; an empty chunk, or none left, is end of file.  The
    reader is taken to hold any chunk whole (its 4096 bytes are not modelled). *)
Definition EOF : error := "EOF".

Fixpoint cut_line (s : string) : option (string * string) :=
  match s with
  | EmptyString => None
  | String c s' =>
      if Ascii.eqb c "010" then Some (String c EmptyString, s')
      else match cut_line s' with
           | Some (line, rest) => Some (String c line, rest)
           | None => None
           end
  end.

Fixpoint read_string (buf : string) (chunks : list string)
  : (string * option error) * (string * list string) :=
  match cut_line buf with
  | Some (line, rest) => ((line, None), (rest, chunks))
  | None =>
      match chunks with
      | [] => ((buf, Some EOF), (EmptyString, []))
      | c :: chunks' =>
          if String.eqb c "" then ((buf, Some EOF), (EmptyString, chunks'))
          else read_string (buf +:+ c) chunks'
      end
  end.

Definition ReadString (buf : string) : Go ((string * option error) * string) :=
  fun w =>
    let '(r, (buf', chunks')) := read_string buf (stdin w) in
    (inl (r, buf'), set_stdin chunks' w).

(** color.Cyan, color.Red, ... of github.com/fatih/color: the text is printed
    as it stands when there are no operands, formatted otherwise. *)
Definition color (c : colour) (format : string) (args : list string) : Go unit :=
  match args with
  | [] => Print c format
  | _ => Print c (Sprintf format args)
  end.

(** ** The program *)

Definition releasesURL : string :=
  "https://api.github.com/repos/kleeedolinux/SolVM/releases".

(** main.go:29-46 *)
Definition getLatestRelease : Go (result Release) :=
  r ← http_Get releasesURL;
  match r with
  | Err e => mret (Err e)
  | Ok resp =>
      h ← getHost;
      match decode h resp with
      | Err e => mret (Err e)
      | Ok releases =>
          match releases with
          | [] => mret (Err (Sprintf "no releases found" []))
          | first :: _ => mret (Ok first)
          end
      end
  end.

(** main.go:71-74 *)
Definition assetName (osName arch : string) : string :=
  let assetName := Sprintf "solvm-%s-%s" [osName; arch] in
  if String.eqb osName "windows" then assetName +:+ ".exe" else assetName.

(** main.go:76-80, the loop over the assets *)
Fixpoint rangeAssets (assetName : string) (assets : list Asset) : option Asset :=
  match assets with
  | [] => None
  | asset :: rest =>
      if String.eqb (Name asset) assetName then Some asset
      else rangeAssets assetName rest
  end.

(** main.go:48-83 *)
Definition getSystemAsset (release : Release) : Go (result Asset) :=
  h ← getHost;
  let osName :=
    if String.eqb (GOOS h) "windows" then Some "windows"
    else if String.eqb (GOOS h) "darwin" then Some "darwin"
    else if String.eqb (GOOS h) "linux" then Some "linux"
    else None in
  match osName with
  | None => mret (Err (Sprintf "unsupported operating system: %s" [GOOS h]))
  | Some osName =>
      let arch :=
        if String.eqb (GOARCH h) "amd64" then Some "amd64"
        else if String.eqb (GOARCH h) "arm64" then Some "arm64"
        else None in
      match arch with
      | None => mret (Err (Sprintf "unsupported architecture: %s" [GOARCH h]))
      | Some arch =>
          match rangeAssets (assetName osName arch) (Assets release) with
          | Some asset => mret (Ok asset)
          | None =>
              mret (Err (Sprintf "no matching asset found for %s/%s" [osName; arch]))
          end
      end
  end.

Definition StatusOK : Z := 200.

(** io.Copy of the body into the file just created: the bytes that arrive
    are written, then the error of the stream, if any, is returned.  The
    progress bar, the second writer, only draws and is left out. *)
Definition io_Copy (dest : string) (resp : Response) : Go (result unit) :=
  wr ← (if String.eqb (Body resp) "" then mret (Ok tt)
        else file_Write dest (Body resp));
  match wr with
  | Err e => mret (Err e)
  | Ok _ =>
      match BodyErr resp with
      | Some e => mret (Err e)
      | None => mret (Ok tt)
      end
  end.

(** main.go:85-109 *)
Definition downloadFile (url dest : string) : Go (result unit) :=
  r ← http_Get url;
  match r with
  | Err e => mret (Err e)
  | Ok resp =>
      if negb (StatusCode resp =? StatusOK) then
        mret (Err (Sprintf "bad status: %s" [Status resp]))
      else
        out ← os_Create dest;
        match out with
        | Err e => mret (Err e)
        | Ok _ => io_Copy dest resp
        end
  end.

Definition powershellCommand : string :=
  "$path = [Environment]::GetEnvironmentVariable('Path', 'User'); if (-not $path.Contains('%s')) { [Environment]::SetEnvironmentVariable('Path', $path + ';%s', 'User') }".

Definition pathLineFormat : string :=
  nl +:+ "export PATH=" +:+ dquote +:+ "%s:$PATH" +:+ dquote +:+ nl.

(** main.go:111-146 *)
Definition addToPath (installDir : string) : Go (result unit) :=
  h ← getHost;
  if String.eqb (GOOS h) "windows" then
    exec_Run ["powershell"; "-Command";
              Sprintf powershellCommand [installDir; installDir]]
  else if String.eqb (GOOS h) "darwin" || String.eqb (GOOS h) "linux" then
    let shell := Getenv h "SHELL" in
    let rcFile :=
      if Contains shell "zsh" then Join (GOOS h) (Getenv h "HOME") ".zshrc"
      else Join (GOOS h) (Getenv h "HOME") ".bashrc" in
    let pathLine := Sprintf pathLineFormat [installDir] in
    f ← os_OpenAppend rcFile;
    match f with
    | Err e => mret (Err e)
    | Ok _ =>
        wr ← file_Write rcFile pathLine;
        match wr with
        | Err e => mret (Err e)
        | Ok _ => exec_Run ["source"; rcFile]
        end
    end
  else mret (Ok tt).

(** main.go:150-163, the loop.  Every turn that goes round again has taken a
    line, so the bytes still to come bound the number of turns: [fuel] is
    that bound, and [None] marks a loop that was cut short. *)
Fixpoint askLoop (fuel : nat) (message buf : string) : Go (option bool) :=
  match fuel with
  | O => mret None
  | S fuel' =>
      Print Plain (Sprintf "%s [y/N]: " [message]);;
      r ← ReadString buf;
      let '((response, err), buf') := r in
      match err with
      | Some _ => mret (Some false)
      | None =>
          let response := ToLower (TrimSpace response) in
          if String.eqb response "y" || String.eqb response "yes" then
            mret (Some true)
          else if String.eqb response "n" || String.eqb response "no"
                  || String.eqb response "" then
            mret (Some false)
          else askLoop fuel' message buf'
      end
  end.

Definition pending (chunks : list string) : nat :=
  foldr (fun c n => (String.length c + n)%nat) O chunks.

(** The loop entered with a reader that holds [buf]. *)
Definition askFrom (message buf : string) : Go bool :=
  fun w =>
    match askLoop (S (String.length buf + pending (stdin w))) message buf w with
    | (inl (Some answer), w') => (inl answer, w')
    | (inl None, w') => (inl false, w')
    | (inr code, w') => (inr code, w')
    end.

(** main.go:148-164.  The reader is new at every call: what an earlier
    reader had buffered is gone. *)
Definition askForConfirmation (message : string) : Go bool :=
  askFrom message "".

Definition is_ok {A} (r : result A) : bool :=
  match r with Ok _ => true | Err _ => false end.

(** main.go:166-173 *)
Definition checkExistingInstallation (installDir : string) : Go bool :=
  h ← getHost;
  if String.eqb (GOOS h) "windows" then
    r ← os_Stat (Join (GOOS h) installDir "solvm.exe");
    mret (is_ok r)
  else
    r ← os_Stat (Join (GOOS h) installDir "solvm");
    mret (is_ok r).

(** main.go:175-259.  [h] holds what the run reads of its host: the
    constants of package runtime and the home directory. *)
Definition main : Go unit :=
  h ← getHost;
  color Cyan "SolVM Installer" [];;
  color Cyan "===============" [];;
  homeDir ← match UserHomeDir h return Go string with
            | Err err =>
                color Red "Error getting home directory: %v" [err];;
                os_Exit 1
            | Ok homeDir => mret homeDir
            end;
  let installDir := Join (GOOS h) homeDir ".solvm" in
  existing ← checkExistingInstallation installDir;
  (if existing : bool then
     replace ← askForConfirmation "SolVM is already installed. Do you want to replace it?";
     if negb replace then
       color Yellow "Installation cancelled" [];;
       os_Exit 0
     else mret tt
   else mret tt);;
  release ← getLatestRelease;
  release ← match release return Go Release with
            | Err err =>
                color Red "Error getting latest release: %v" [err];;
                os_Exit 1
            | Ok release => mret release
            end;
  color Green "Latest version: %s" [TagName release];;
  asset ← getSystemAsset release;
  asset ← match asset return Go Asset with
          | Err err =>
              color Red "Error finding system asset: %v" [err];;
              os_Exit 1
          | Ok asset => mret asset
          end;
  color Yellow "Found matching asset: %s" [Name asset];;
  install ← askForConfirmation "Do you want to install SolVM?";
  (if negb install then
     color Yellow "Installation cancelled" [];;
     os_Exit 0
   else mret tt);;
  made ← os_MkdirAll installDir 493;
  match made with
  | Err err =>
      color Red "Error creating install directory: %v" [err];;
      os_Exit 1
  | Ok _ => mret tt
  end;;
  let tempPath := Join (GOOS h) installDir (Name asset) in
  color Yellow "Downloading to: %s" [tempPath];;
  downloaded ← downloadFile (BrowserDownloadURL asset) tempPath;
  match downloaded with
  | Err err =>
      color Red "Error downloading file: %v" [err];;
      os_Exit 1
  | Ok _ => mret tt
  end;;
  let finalName := if String.eqb (GOOS h) "windows" then "solvm" +:+ ".exe" else "solvm" in
  let finalPath := Join (GOOS h) installDir finalName in
  renamed ← os_Rename tempPath finalPath;
  match renamed with
  | Err err =>
      color Red "Error renaming file: %v" [err];;
      os_Exit 1
  | Ok _ => mret tt
  end;;
  (if negb (String.eqb (GOOS h) "windows") then
     changed ← os_Chmod finalPath 493;
     match changed with
     | Err err =>
         color Red "Error setting executable permissions: %v" [err];;
         os_Exit 1
     | Ok _ => mret tt
     end
   else mret tt);;
  register ← askForConfirmation "Do you want to add SolVM to your PATH?";
  (if negb register then
     color Yellow "Skipping PATH configuration" []
   else
     color Yellow "Adding to PATH..." [];;
     added ← addToPath installDir;
     match added with
     | Err err =>
         color Red "Error adding to PATH: %v" [err];;
         color Yellow "Please manually add to PATH: %s" [installDir]
     | Ok _ => color Green "Successfully added to PATH" []
     end);;
  color Green "Installation complete!" [];;
  color Green "Please restart your terminal to use SolVM" [].

(** *** The steps of main

    The same run, cut at the points the end-to-end properties speak of;
    [main_steps_eq] below shows that the pieces in sequence are [main]. *)

(** main.go:176-185: the banner and the install directory *)
Definition main_setup (h : Host) : Go string :=
  color Cyan "SolVM Installer" [];;
  color Cyan "===============" [];;
  homeDir ← match UserHomeDir h return Go string with
            | Err err =>
                color Red "Error getting home directory: %v" [err];;
                os_Exit 1
            | Ok homeDir => mret homeDir
            end;
  mret (Join (GOOS h) homeDir ".solvm").

(** main.go:186-191: the question about an installation already there *)
Definition main_replace (installDir : string) : Go unit :=
  existing ← checkExistingInstallation installDir;
  if existing : bool then
    replace ← askForConfirmation "SolVM is already installed. Do you want to replace it?";
    if negb replace then
      color Yellow "Installation cancelled" [];;
      os_Exit 0
    else mret tt
  else mret tt.

(** main.go:193-220: release, asset, confirmation, install directory *)
Definition main_select (h : Host) (installDir : string) : Go Asset :=
  release ← getLatestRelease;
  release ← match release return Go Release with
            | Err err =>
                color Red "Error getting latest release: %v" [err];;
                os_Exit 1
            | Ok release => mret release
            end;
  color Green "Latest version: %s" [TagName release];;
  asset ← getSystemAsset release;
  asset ← match asset return Go Asset with
          | Err err =>
              color Red "Error finding system asset: %v" [err];;
              os_Exit 1
          | Ok asset => mret asset
          end;
  color Yellow "Found matching asset: %s" [Name asset];;
  install ← askForConfirmation "Do you want to install SolVM?";
  (if negb install then
     color Yellow "Installation cancelled" [];;
     os_Exit 0
   else mret tt);;
  made ← os_MkdirAll installDir 493;
  match made with
  | Err err =>
      color Red "Error creating install directory: %v" [err];;
      os_Exit 1
  | Ok _ => mret tt
  end;;
  color Yellow "Downloading to: %s" [Join (GOOS h) installDir (Name asset)];;
  mret asset.

Definition tempPath (h : Host) (installDir : string) (asset : Asset) : string :=
  Join (GOOS h) installDir (Name asset).

Definition finalPath (h : Host) (installDir : string) : string :=
  Join (GOOS h) installDir
       (if String.eqb (GOOS h) "windows" then "solvm" +:+ ".exe" else "solvm").

(** main.go:222-225: the download *)
Definition main_download (h : Host) (installDir : string) (asset : Asset) : Go unit :=
  downloaded ← downloadFile (BrowserDownloadURL asset) (tempPath h installDir asset);
  match downloaded with
  | Err err =>
      color Red "Error downloading file: %v" [err];;
      os_Exit 1
  | Ok _ => mret tt
  end.

(** main.go:227-243: the rename to the final name and the permissions *)
Definition main_place (h : Host) (installDir : string) (asset : Asset) : Go unit :=
  renamed ← os_Rename (tempPath h installDir asset) (finalPath h installDir);
  match renamed with
  | Err err =>
      color Red "Error renaming file: %v" [err];;
      os_Exit 1
  | Ok _ => mret tt
  end;;
  if negb (String.eqb (GOOS h) "windows") then
    changed ← os_Chmod (finalPath h installDir) 493;
    match changed with
    | Err err =>
        color Red "Error setting executable permissions: %v" [err];;
        os_Exit 1
    | Ok _ => mret tt
    end
  else mret tt.

(** main.go:245-258: the registration on the PATH and the last messages *)
Definition main_register (installDir : string) : Go unit :=
  register ← askForConfirmation "Do you want to add SolVM to your PATH?";
  (if negb register then
     color Yellow "Skipping PATH configuration" []
   else
     color Yellow "Adding to PATH..." [];;
     added ← addToPath installDir;
     match added with
     | Err err =>
         color Red "Error adding to PATH: %v" [err];;
         color Yellow "Please manually add to PATH: %s" [installDir]
     | Ok _ => color Green "Successfully added to PATH" []
     end);;
  color Green "Installation complete!" [];;
  color Green "Please restart your terminal to use SolVM" [].

Definition main_steps : Go unit :=
  h ← getHost;
  installDir ← main_setup h;
  main_replace installDir;;
  asset ← main_select h installDir;
  main_download h installDir asset;;
  main_place h installDir asset;;
  main_register installDir.

(** The run up to the download, and up to the question about the PATH. *)
Definition main_selected : Go (string * Asset) :=
  h ← getHost;
  installDir ← main_setup h;
  main_replace installDir;;
  asset ← main_select h installDir;
  mret (installDir, asset).

Definition main_installed : Go string :=
  h ← getHost;
  selected ← main_selected;
  main_download h selected.1 selected.2;;
  main_place h selected.1 selected.2;;
  mret selected.1.

(** ** Vocabulary of the specification *)

Definition supported_os : list string := ["windows"; "darwin"; "linux"].
Definition supported_arch : list string := ["amd64"; "arm64"].

(** The expected file name as the specification words it: solvm-<os>-<arch>,
    with .exe appended when the system is windows. *)
Definition expected_filename (os arch : string) : string :=
  "solvm-" +:+ os +:+ "-" +:+ arch +:+
  (if decide (os = "windows") then ".exe" else "").

(** The errors the specification names, as the messages of main.go. *)
Definition UnsupportedPlatform (h : Host) (e : error) : Prop :=
  e = "unsupported operating system: " +:+ GOOS h ∨
  e = "unsupported architecture: " +:+ GOARCH h.

Definition AssetNotFound (os arch : string) : error :=
  "no matching asset found for " +:+ os +:+ "/" +:+ arch.

Definition NotFound : error := "no releases found".

(** The answers to a prompt: a line is taken trimmed and in lower case. *)
Definition affirmative (line : string) : bool :=
  let r := ToLower (TrimSpace line) in
  String.eqb r "y" || String.eqb r "yes".

Definition declining (line : string) : bool :=
  let r := ToLower (TrimSpace line) in
  String.eqb r "n" || String.eqb r "no" || String.eqb r "".

Definition prompt (message : string) : syscall :=
  SysPrint Plain (message +:+ " [y/N]: ").

(** The resource file of the shell, in the words of the specification:
    .zshrc in the home directory when the name of the shell contains zsh,
    .bashrc there otherwise; and the line that is appended to it. *)
Definition rcFile (h : Host) : string :=
  Join (GOOS h) (Getenv h "HOME")
       (if Contains (Getenv h "SHELL") "zsh" then ".zshrc" else ".bashrc").

Definition pathLine (installDir : string) : string :=
  nl +:+ "export PATH=" +:+ dquote +:+ installDir +:+ ":$PATH" +:+ dquote +:+ nl.

Definition posix (h : Host) : Prop :=
  GOOS h = "darwin" \/ GOOS h = "linux".

(** The network requests of a trace, in order. *)
Definition requests (t : list syscall) : list string :=
  omap (fun c => match c with SysHttpGet url => Some url | _ => None end) t.

(** A plain name: not empty, not a dot or two, and with no slash and no
    colon in it.  The names the program joins to a directory are plain. *)
Fixpoint plainChars (s : string) : bool :=
  match s with
  | EmptyString => true
  | String c s' =>
      negb (Ascii.eqb c "/" || Ascii.eqb c "\" || Ascii.eqb c ":") && plainChars s'
  end.

Definition plainName (name : string) : bool :=
  plainChars name &&
  negb (String.eqb name "" || String.eqb name "." || String.eqb name "..").

(** All the bytes that the reads of standard input still to come will bring. *)
Definition text (chunks : list string) : string :=
  foldr String.append EmptyString chunks.

(** ** Relations between the world before and after a step

    The host and the files are the same; the host and the network requests
    made so far are the same; the host is the same and so are the files
    everywhere but at one path. *)

Definition same_files (w w' : World) : Prop :=
  host w' = host w /\ fs w' = fs w.

Definition same_requests (w w' : World) : Prop :=
  host w' = host w /\ requests (trace w') = requests (trace w).

Definition same_off (path : string) (w w' : World) : Prop :=
  host w' = host w /\ forall p, p <> path -> fs w' !! p = fs w !! p.

(** The calls made so far are still there, in place, and new ones come
    after them. *)
Definition grows (w w' : World) : Prop :=
  trace w `prefix_of` trace w'.

(** A step respects a relation when every run of it, ended by os.Exit or
    not, takes a world to a related one. *)
Definition respects (R : relation World) {A} (m : Go A) : Prop :=
  forall w r w', m w = (r, w') -> R w w'.

Abbreviation keeps := (respects same_files).
Abbreviation silent := (respects same_requests).

(** A step exits within [P] when every os.Exit it can reach has its code
    in [P]. *)
Definition exits_within (P : Z -> Prop) {A} (m : Go A) : Prop :=
  forall w code w', m w = (inr code, w') -> P code.

(** ** Example worlds

    A user u with home /home/u and zsh as shell; the release API answers with
    the body given, which decodes to [releases]; the download of an asset
    answers [asset_response]; [faults] says which calls the machine refuses. *)

Definition example_env (key : string) : string :=
  if String.eqb key "HOME" then "/home/u"
  else if String.eqb key "SHELL" then "/bin/zsh"
  else "".

Definition example_host (goos goarch : string) (releases : list Release)
    (asset_response : result Response) (faults : syscall -> option error) : Host :=
  {| GOOS := goos;
     GOARCH := goarch;
     Getenv := example_env;
     UserHomeDir := Ok "/home/u";
     http := fun _ url =>
       if String.eqb url releasesURL
       then Ok (mkResponse 200 "200 OK" (-1) "[...]" None)
       else asset_response;
     decode := fun _ => Ok releases;
     fails := fun _ => faults;
     written := fun _ => O;
     umask := 18 |}.

Definition no_faults (c : syscall) : option error := None.

(** The machine has no program called source: it is a builtin of the shell. *)
Definition source_not_found (c : syscall) : option error :=
  match c with
  | SysExec ("source" :: _) => Some "exec: source: executable file not found in $PATH"
  | _ => None
  end.

Definition binary_response : result Response :=
  Ok (mkResponse 200 "200 OK" 3 "ELF" None).

(** The stream of the download breaks after one byte. *)
Definition broken_response : result Response :=
  Ok (mkResponse 200 "200 OK" 3 "E" (Some "unexpected EOF")).

Definition release_v120 : Release :=
  mkRelease "v1.2.0"
    [mkAsset "SOLVM-LINUX-AMD64" "U0";
     mkAsset "solvm-linux-amd64.tar.gz" "U1";
     mkAsset "solvm-linux-amd64" "U2";
     mkAsset "solvm-windows-arm64.exe" "U3";
     mkAsset "solvm-linux-amd64" "U4"].

Definition release_v110 : Release :=
  mkRelease "v1.1.0"
    [mkAsset "SOLVM-LINUX-AMD64" "U0";
     mkAsset "solvm-linux-amd64.tar.gz" "U1"].

Definition example_world (h : Host) (input : list string)
    (files : list (string * File)) : World :=
  mkWorld h input (list_to_map files) [].

Definition linux_host : Host :=
  example_host "linux" "amd64" [release_v120; release_v110] binary_response no_faults.

(** A user whose HOME is written with a slash at its end. *)
Definition trailing_slash_host : Host :=
  {| GOOS := "linux";
     GOARCH := "amd64";
     Getenv := fun key => if String.eqb key "HOME" then "/home/u/" else example_env key;
     UserHomeDir := Ok "/home/u/";
     http := http linux_host;
     decode := decode linux_host;
     fails := fun _ => no_faults;
     written := fun _ => O;
     umask := 18 |}.

(** The bytes of U+00A0, the no-break space, and of U+3000, the wide space. *)
Definition noBreakSpace : string :=
  String (ascii_of_N 194) (String (ascii_of_N 160) EmptyString).

Definition wideSpace : string :=
  String (ascii_of_N 227) (String (ascii_of_N 128) (String (ascii_of_N 128) EmptyString)).

(** More hosts: one with no network, one whose release API answers with
    something that is no list of releases, one with no home directory. *)
Definition offline_host : Host :=
  {| GOOS := "linux";
     GOARCH := "amd64";
     Getenv := example_env;
     UserHomeDir := Ok "/home/u";
     http := fun _ _ => Err "dial tcp: no route to host";
     decode := fun _ => Ok [release_v120];
     fails := fun _ => no_faults;
     written := fun _ => O;
     umask := 18 |}.

Definition garbled_host : Host :=
  {| GOOS := "linux";
     GOARCH := "amd64";
     Getenv := example_env;
     UserHomeDir := Ok "/home/u";
     http := fun _ _ => Ok (mkResponse 403 "403 Forbidden" (-1) "{...}" None);
     decode := fun _ => Err "json: cannot unmarshal object into Go value of type []main.Release";
     fails := fun _ => no_faults;
     written := fun _ => O;
     umask := 18 |}.

Definition homeless_host : Host :=
  {| GOOS := "linux";
     GOARCH := "amd64";
     Getenv := example_env;
     UserHomeDir := Err "$HOME is not defined";
     http := fun _ _ => binary_response;
     decode := fun _ => Ok [release_v120];
     fails := fun _ => no_faults;
     written := fun _ => O;
     umask := 18 |}.

Definition not_found_response : result Response :=
  Ok (mkResponse 404 "404 Not Found" 9 "Not Found" None).

Definition refuse_create (c : syscall) : option error :=
  match c with
  | SysCreate _ => Some "permission denied"
  | _ => None
  end.

Definition refuse_rename (c : syscall) : option error :=
  match c with
  | SysRename _ _ => Some "permission denied"
  | _ => None
  end.

Definition refuse_chmod (c : syscall) : option error :=
  match c with
  | SysChmod _ _ => Some "operation not permitted"
  | _ => None
  end.

(** ** Proofs *)

Ltac go_unfold :=
  unfold mbind, Go_bind, bind, mret, Go_ret, ret, getHost, getFs, putFs in *.

Lemma supported_os_cases (os : string) :
  os ∈ supported_os -> os = "windows" ∨ os = "darwin" ∨ os = "linux".
Proof. unfold supported_os. rewrite !elem_of_cons, elem_of_nil. tauto. Qed.

Lemma supported_arch_cases (arch : string) :
  arch ∈ supported_arch -> arch = "amd64" ∨ arch = "arm64".
Proof. unfold supported_arch. rewrite !elem_of_cons, elem_of_nil. tauto. Qed.

Lemma assetName_expected (os arch : string) :
  os ∈ supported_os -> arch ∈ supported_arch ->
  assetName os arch = expected_filename os arch.
Proof.
  intros Hos Harch.
  apply supported_os_cases in Hos. apply supported_arch_cases in Harch.
  destruct Hos as [-> | [-> | ->]], Harch as [-> | ->]; reflexivity.
Qed.

(** On a supported platform the matcher is the scan for the expected name. *)
Lemma getSystemAsset_supported (release : Release) (w : World) :
  GOOS (host w) ∈ supported_os -> GOARCH (host w) ∈ supported_arch ->
  getSystemAsset release w =
  (inl (match rangeAssets (expected_filename (GOOS (host w)) (GOARCH (host w)))
                (Assets release) with
        | Some asset => Ok asset
        | None => Err (AssetNotFound (GOOS (host w)) (GOARCH (host w)))
        end), w).
Proof.
  intros Hos Harch.
  rewrite <- (assetName_expected _ _ Hos Harch).
  apply supported_os_cases in Hos. apply supported_arch_cases in Harch.
  unfold getSystemAsset. go_unfold.
  destruct Hos as [-> | [-> | ->]], Harch as [-> | ->]; cbn;
    destruct (rangeAssets _ _); reflexivity.
Qed.

Lemma rangeAssets_Some (name : string) (assets : list Asset) (a : Asset) :
  rangeAssets name assets = Some a <->
  exists pre post, assets = pre ++ a :: post /\ Name a = name /\
                   Forall (fun x => Name x <> name) pre.
Proof.
  induction assets as [| x rest IH]; simpl.
  - split; [discriminate |]. intros (pre & post & E & _). by destruct pre.
  - destruct (String.eqb_spec (Name x) name) as [Heq | Hne].
    + split.
      * intros [= <-]. exists [], rest. auto.
      * intros (pre & post & E & Hn & Hpre). destruct pre as [| y pre]; simpl in E.
        -- congruence.
        -- injection E as <- _. apply Forall_cons in Hpre as [? _]. contradiction.
    + rewrite IH. split.
      * intros (pre & post & -> & Hn & Hpre). exists (x :: pre), post. auto.
      * intros (pre & post & E & Hn & Hpre). destruct pre as [| y pre]; simpl in E.
        -- injection E as -> _. contradiction.
        -- injection E as <- ->. apply Forall_cons in Hpre as [_ ?]. eauto.
Qed.

Lemma rangeAssets_None (name : string) (assets : list Asset) :
  rangeAssets name assets = None <-> Forall (fun x => Name x <> name) assets.
Proof.
  induction assets as [| x rest IH]; simpl.
  - split; auto.
  - destruct (String.eqb_spec (Name x) name) as [Heq | Hne].
    + split; [discriminate |]. intros H. apply Forall_cons in H as [? _]. contradiction.
    + rewrite IH. split; [auto |]. intros H. by apply Forall_cons in H as [_ ?].
Qed.

Lemma append_empty_r (s : string) : s +:+ "" = s.
Proof.
  induction s as [| c s IH]; [reflexivity |].
  change (String c (s +:+ "") = String c s). by rewrite IH.
Qed.

Lemma append_assoc (s t u : string) : s +:+ t +:+ u = (s +:+ t) +:+ u.
Proof.
  induction s as [| c s IH]; [reflexivity |].
  change (String c (s +:+ t +:+ u) = String c ((s +:+ t) +:+ u)). by rewrite IH.
Qed.

Lemma not_supported_os (os : string) :
  os ∉ supported_os ->
  String.eqb os "windows" = false /\ String.eqb os "darwin" = false /\
  String.eqb os "linux" = false.
Proof.
  unfold supported_os. rewrite !not_elem_of_cons, !String.eqb_neq. tauto.
Qed.

Lemma not_supported_arch (arch : string) :
  arch ∉ supported_arch ->
  String.eqb arch "amd64" = false /\ String.eqb arch "arm64" = false.
Proof.
  unfold supported_arch. rewrite !not_elem_of_cons, !String.eqb_neq. tauto.
Qed.

(** *** The asset matcher *)

(** C1: for every supported pair (os, arch) the name the matcher builds is
    solvm-<os>-<arch>, with .exe appended exactly when os is windows: it is
    the name the matcher looks for, since a release with a single asset
    yields that asset exactly when the asset bears this name, and an asset
    the matcher returns from any release bears it. *)
Theorem C1_asset_filename (w : World) (os arch : string) :
  os ∈ supported_os -> arch ∈ supported_arch ->
  GOOS (host w) = os -> GOARCH (host w) = arch ->
  assetName os arch = expected_filename os arch /\
  (forall tag name url,
      getSystemAsset (mkRelease tag [mkAsset name url]) w =
      (inl (if decide (name = expected_filename os arch)
            then Ok (mkAsset name url)
            else Err (AssetNotFound os arch)), w)) /\
  (forall release a,
      (getSystemAsset release w).1 = inl (Ok a) ->
      Name a = expected_filename os arch).
Proof.
  intros Hos Harch <- <-. split; [by apply assetName_expected |]. split.
  - intros tag name url. rewrite getSystemAsset_supported by assumption. simpl.
    destruct (String.eqb_spec name (expected_filename (GOOS (host w)) (GOARCH (host w))));
      by destruct (decide _).
  - intros release a. rewrite getSystemAsset_supported by assumption. simpl.
    destruct (rangeAssets _ _) as [b |] eqn:E; [| discriminate].
    intros [= ->]. apply rangeAssets_Some in E as (_ & _ & _ & Hn & _). exact Hn.
Qed.

(** C2: on a supported platform the matcher returns the first asset whose
    name equals the expected name, byte for byte, and the AssetNotFound error
    when no asset bears exactly that name. *)
Theorem C2_first_exact_match (w : World) (release : Release) :
  GOOS (host w) ∈ supported_os -> GOARCH (host w) ∈ supported_arch ->
  let expected := expected_filename (GOOS (host w)) (GOARCH (host w)) in
  (forall pre a post,
      Assets release = pre ++ a :: post ->
      Name a = expected ->
      Forall (fun x => Name x <> expected) pre ->
      getSystemAsset release w = (inl (Ok a), w)) /\
  (Forall (fun x => Name x <> expected) (Assets release) ->
   getSystemAsset release w =
   (inl (Err (AssetNotFound (GOOS (host w)) (GOARCH (host w)))), w)).
Proof.
  intros Hos Harch expected. rewrite getSystemAsset_supported by assumption.
  fold expected. split.
  - intros pre a post E Hn Hpre.
    assert (rangeAssets expected (Assets release) = Some a) as ->; [| reflexivity].
    apply rangeAssets_Some. eauto.
  - intros Hnone. apply rangeAssets_None in Hnone. by rewrite Hnone.
Qed.

Lemma getSystemAsset_unsupported (w : World) (release : Release) :
  GOOS (host w) ∉ supported_os \/ GOARCH (host w) ∉ supported_arch ->
  exists e, getSystemAsset release w = (inl (Err e), w) /\
            UnsupportedPlatform (host w) e.
Proof.
  intros H. unfold getSystemAsset, UnsupportedPlatform. go_unfold.
  destruct (decide (GOOS (host w) ∈ supported_os)) as [Hos | Hos].
  - destruct H as [H | H]; [contradiction |].
    apply not_supported_arch in H as [E1 E2].
    apply supported_os_cases in Hos.
    exists ("unsupported architecture: " +:+ GOARCH (host w)).
    destruct Hos as [-> | [-> | ->]]; cbn; rewrite E1, E2; cbn;
      rewrite append_empty_r; auto.
  - apply not_supported_os in Hos as (E1 & E2 & E3).
    exists ("unsupported operating system: " +:+ GOOS (host w)).
    cbn. rewrite E1, E2, E3. cbn. rewrite append_empty_r. auto.
Qed.

(** C5: when the system is none of windows, darwin, linux, or the
    architecture none of amd64, arm64, the matcher returns the
    UnsupportedPlatform error and leaves the world as it was: it makes no
    call, so no network request. *)
Theorem C5_unsupported_platform (w : World) (release : Release) :
  GOOS (host w) ∉ supported_os \/ GOARCH (host w) ∉ supported_arch ->
  exists e, getSystemAsset release w = (inl (Err e), w) /\
            UnsupportedPlatform (host w) e /\
            requests (trace (snd (getSystemAsset release w))) = requests (trace w).
Proof.
  intros H. destruct (getSystemAsset_unsupported w release H) as (e & E & He).
  exists e. rewrite E. auto.
Qed.

(** An asset comes back only on a supported platform, and bears the
    expected name. *)
Lemma getSystemAsset_Ok (release : Release) (w : World) (a : Asset) (w' : World) :
  getSystemAsset release w = (inl (Ok a), w') ->
  GOOS (host w) ∈ supported_os /\ GOARCH (host w) ∈ supported_arch /\
  Name a = expected_filename (GOOS (host w)) (GOARCH (host w)).
Proof.
  intros H.
  destruct (decide (GOOS (host w) ∈ supported_os)) as [Hos | Hos];
    [destruct (decide (GOARCH (host w) ∈ supported_arch)) as [Harch | Harch] |].
  - rewrite getSystemAsset_supported in H by assumption.
    destruct (rangeAssets _ _) as [b |] eqn:E; [| discriminate].
    injection H as -> _. apply rangeAssets_Some in E as (_ & _ & _ & Hn & _). auto.
  - destruct (getSystemAsset_unsupported w release) as (e & E & _); [by right |].
    congruence.
  - destruct (getSystemAsset_unsupported w release) as (e & E & _); [by left |].
    congruence.
Qed.

(** *** The release locator *)

(** C4: once the list of releases is decoded, the locator returns its first
    element as it is (tag and assets untouched) when there is one, and the
    NotFound error when the list is empty. *)
Theorem C4_first_release (w : World) (resp : Response) (releases : list Release) :
  http (host w) (length (trace w)) releasesURL = Ok resp ->
  decode (host w) resp = Ok releases ->
  (forall first rest,
      releases = first :: rest ->
      getLatestRelease w = (inl (Ok first), log (SysHttpGet releasesURL) w)) /\
  (releases = [] ->
   getLatestRelease w = (inl (Err NotFound), log (SysHttpGet releasesURL) w)).
Proof.
  intros Hget Hdec. unfold getLatestRelease, http_Get. go_unfold.
  rewrite Hget. cbn. rewrite Hdec.
  split; [intros first rest -> | intros ->]; reflexivity.
Qed.

Lemma C1_asset_filename_witness :
  let w := example_world
             (example_host "windows" "arm64" [release_v120] binary_response no_faults)
             [] [] in
  let w' := example_world linux_host [] [] in
  (assetName "windows" "arm64" = "solvm-windows-arm64.exe" /\
   (forall tag name url,
       getSystemAsset (mkRelease tag [mkAsset name url]) w =
       (inl (if decide (name = "solvm-windows-arm64.exe")
             then Ok (mkAsset name url)
             else Err "no matching asset found for windows/arm64"), w)) /\
   (forall release a,
       (getSystemAsset release w).1 = inl (Ok a) ->
       Name a = "solvm-windows-arm64.exe")) /\
  (assetName "linux" "amd64" = "solvm-linux-amd64" /\
   (forall tag name url,
       getSystemAsset (mkRelease tag [mkAsset name url]) w' =
       (inl (if decide (name = "solvm-linux-amd64")
             then Ok (mkAsset name url)
             else Err "no matching asset found for linux/amd64"), w')) /\
   (forall release a,
       (getSystemAsset release w').1 = inl (Ok a) ->
       Name a = "solvm-linux-amd64")).
Proof.
  intros w w'. split.
  - apply (C1_asset_filename w "windows" "arm64");
      [repeat constructor | repeat constructor | reflexivity | reflexivity].
  - apply (C1_asset_filename w' "linux" "amd64");
      [repeat constructor | repeat constructor | reflexivity | reflexivity].
Defined.

Lemma C2_first_exact_match_witness :
  let w := example_world linux_host [] [] in
  getSystemAsset release_v120 w = (inl (Ok (mkAsset "solvm-linux-amd64" "U2")), w) /\
  getSystemAsset release_v110 w =
  (inl (Err "no matching asset found for linux/amd64"), w).
Proof.
  intros w.
  assert (Hos : GOOS (host w) ∈ supported_os) by repeat constructor.
  assert (Harch : GOARCH (host w) ∈ supported_arch) by repeat constructor.
  split.
  - apply (proj1 (C2_first_exact_match w release_v120 Hos Harch)
             [mkAsset "SOLVM-LINUX-AMD64" "U0"; mkAsset "solvm-linux-amd64.tar.gz" "U1"]
             (mkAsset "solvm-linux-amd64" "U2")
             [mkAsset "solvm-windows-arm64.exe" "U3"; mkAsset "solvm-linux-amd64" "U4"]);
      [reflexivity | reflexivity |].
    repeat constructor; discriminate.
  - apply (proj2 (C2_first_exact_match w release_v110 Hos Harch)).
    repeat constructor; discriminate.
Defined.

Lemma C5_unsupported_platform_witness :
  let w := example_world
             (example_host "freebsd" "riscv64" [release_v120] binary_response no_faults)
             [] [] in
  exists e, getSystemAsset release_v120 w = (inl (Err e), w) /\
            UnsupportedPlatform (host w) e /\
            requests (trace (snd (getSystemAsset release_v120 w))) = requests (trace w).
Proof.
  intros w. apply C5_unsupported_platform. left.
  unfold supported_os. rewrite !not_elem_of_cons, elem_of_nil.
  repeat split; try discriminate. tauto.
Defined.

Lemma C4_first_release_witness :
  let w := example_world linux_host [] [] in
  let w0 := example_world
              (example_host "linux" "amd64" [] binary_response no_faults) [] [] in
  getLatestRelease w = (inl (Ok release_v120), log (SysHttpGet releasesURL) w) /\
  getLatestRelease w0 = (inl (Err "no releases found"), log (SysHttpGet releasesURL) w0).
Proof.
  intros w w0. split.
  - apply (proj1 (C4_first_release w (mkResponse 200 "200 OK" (-1) "[...]" None)
                    [release_v120; release_v110] eq_refl eq_refl)
             release_v120 [release_v110] eq_refl).
  - apply (proj2 (C4_first_release w0 (mkResponse 200 "200 OK" (-1) "[...]" None)
                    [] eq_refl eq_refl) eq_refl).
Defined.

(** *** The confirmation prompt *)

Lemma length_append (s t : string) :
  String.length (s +:+ t) = (String.length s + String.length t)%nat.
Proof.
  induction s as [| c s IH]; [reflexivity |].
  change (S (String.length (s +:+ t)) = S (String.length s + String.length t)).
  by rewrite IH.
Qed.

Lemma cut_line_shorter (s line rest : string) :
  cut_line s = Some (line, rest) -> (String.length rest < String.length s)%nat.
Proof.
  revert line rest. induction s as [| c s IH]; simpl; intros line rest; [discriminate |].
  destruct (Ascii.eqb c "010").
  - intros [= <- <-]. lia.
  - destruct (cut_line s) as [[l r] |]; [| discriminate].
    intros [= <- <-]. specialize (IH _ _ eq_refl). lia.
Qed.

(** A line handed out without error has used up at least one byte. *)
Lemma read_string_consumes (chunks : list string) :
  forall buf line buf' chunks',
    read_string buf chunks = ((line, None), (buf', chunks')) ->
    (String.length buf' + pending chunks' < String.length buf + pending chunks)%nat.
Proof.
  induction chunks as [| c chunks IH]; intros buf line buf' chunks'; simpl.
  - destruct (cut_line buf) as [[l r] |] eqn:E; [| discriminate].
    intros [= <- <- <-]. apply cut_line_shorter in E. simpl. lia.
  - destruct (cut_line buf) as [[l r] |] eqn:E.
    + intros [= <- <- <-]. apply cut_line_shorter in E. simpl. lia.
    + destruct (String.eqb c ""); [discriminate |].
      intros H. apply IH in H. rewrite length_append in H. lia.
Qed.

(** One turn of the loop. *)
Lemma askLoop_turn (fuel : nat) (message buf : string) (w : World) :
  askLoop (S fuel) message buf w =
  match read_string buf (stdin w) with
  | ((line, Some _), (_, chunks')) =>
      (inl (Some false), set_stdin chunks' (log (prompt message) w))
  | ((line, None), (buf', chunks')) =>
      if affirmative line then
        (inl (Some true), set_stdin chunks' (log (prompt message) w))
      else if declining line then
        (inl (Some false), set_stdin chunks' (log (prompt message) w))
      else askLoop fuel message buf' (set_stdin chunks' (log (prompt message) w))
  end.
Proof.
  unfold askLoop at 1; fold askLoop. unfold ReadString, Print. go_unfold.
  change (stdin (log _ w)) with (stdin w).
  destruct (read_string buf (stdin w)) as [[line [e |]] [buf' chunks']];
    [reflexivity |].
  unfold affirmative, declining.
  destruct (_ || _); [reflexivity |]. destruct (_ || _); reflexivity.
Qed.

(** The loop never runs out of turns: with more fuel than bytes to come it
    answers, and the answer does not depend on the fuel. *)
Lemma askLoop_answers (fuel : nat) :
  forall message buf w,
    (String.length buf + pending (stdin w) < fuel)%nat ->
    exists answer w',
      forall fuel', (String.length buf + pending (stdin w) < fuel')%nat ->
                    askLoop fuel' message buf w = (inl (Some answer), w').
Proof.
  induction fuel as [| fuel IH]; intros message buf w Hlt; [lia |].
  destruct (read_string buf (stdin w)) as [[line [e |]] [buf' chunks']] eqn:E.
  - exists false, (set_stdin chunks' (log (prompt message) w)).
    intros [| fuel'] Hlt'; [lia |]. by rewrite askLoop_turn, E.
  - pose proof (read_string_consumes _ _ _ _ _ E) as Hless.
    destruct (affirmative line) eqn:Ha; [| destruct (declining line) eqn:Hd].
    + exists true, (set_stdin chunks' (log (prompt message) w)).
      intros [| fuel'] Hlt'; [lia |]. by rewrite askLoop_turn, E, Ha.
    + exists false, (set_stdin chunks' (log (prompt message) w)).
      intros [| fuel'] Hlt'; [lia |]. by rewrite askLoop_turn, E, Ha, Hd.
    + destruct (IH message buf' (set_stdin chunks' (log (prompt message) w)))
        as (answer & w' & Hw'); [simpl; lia |].
      exists answer, w'. intros [| fuel'] Hlt'; [lia |].
      rewrite askLoop_turn, E, Ha, Hd. apply Hw'. simpl. lia.
Qed.

(** The loop as the source has it: [askFrom] answers, and it is the turn
    followed by the loop again. *)
Lemma askFrom_turn (message buf : string) (w : World) :
  askFrom message buf w =
  match read_string buf (stdin w) with
  | ((line, Some _), (_, chunks')) =>
      (inl false, set_stdin chunks' (log (prompt message) w))
  | ((line, None), (buf', chunks')) =>
      if affirmative line then
        (inl true, set_stdin chunks' (log (prompt message) w))
      else if declining line then
        (inl false, set_stdin chunks' (log (prompt message) w))
      else askFrom message buf' (set_stdin chunks' (log (prompt message) w))
  end.
Proof.
  unfold askFrom at 1. rewrite askLoop_turn.
  destruct (read_string buf (stdin w)) as [[line [e |]] [buf' chunks']] eqn:E;
    [reflexivity |].
  destruct (affirmative line); [reflexivity |].
  destruct (declining line); [reflexivity |].
  pose proof (read_string_consumes _ _ _ _ _ E) as Hless.
  destruct (askLoop_answers (S (String.length buf' + pending chunks')) message buf'
              (set_stdin chunks' (log (prompt message) w)))
    as (answer & w' & Hw'); [simpl; lia |].
  unfold askFrom. rewrite !Hw' by (simpl; lia). reflexivity.
Qed.

Lemma askFrom_returns (message buf : string) (w : World) :
  exists answer w', askFrom message buf w = (inl answer, w').
Proof.
  destruct (askLoop_answers (S (String.length buf + pending (stdin w))) message buf w)
    as (answer & w' & Hw'); [lia |].
  exists answer, w'. unfold askFrom. by rewrite Hw' by lia.
Qed.

(** What a confirmation leaves alone: the host, the files; to the trace it
    only adds prompts. *)
Lemma askLoop_frame (fuel : nat) :
  forall message buf w r w',
    askLoop fuel message buf w = (r, w') ->
    host w' = host w /\ fs w' = fs w /\
    exists n, trace w' = trace w ++ replicate n (prompt message).
Proof.
  induction fuel as [| fuel IH]; intros message buf w r w'.
  - intros [= <- <-]. repeat split. exists O. by rewrite app_nil_r.
  - rewrite askLoop_turn.
    destruct (read_string buf (stdin w)) as [[line [e |]] [buf' chunks']].
    { intros [= <- <-]. repeat split. by exists 1%nat. }
    destruct (affirmative line); [intros [= <- <-]; repeat split; by exists 1%nat |].
    destruct (declining line); [intros [= <- <-]; repeat split; by exists 1%nat |].
    intros H. apply IH in H as (Hh & Hf & n & Ht). repeat split; [done | done |].
    exists (S n). rewrite Ht. simpl. by rewrite <- app_assoc.
Qed.

Lemma askForConfirmation_frame (message : string) (w : World) (r : bool + Z) (w' : World) :
  askForConfirmation message w = (r, w') ->
  host w' = host w /\ fs w' = fs w /\
  exists n, trace w' = trace w ++ replicate n (prompt message).
Proof.
  unfold askForConfirmation, askFrom.
  destruct (askLoop _ _ _ _) as [[[a |] | code] w1] eqn:E;
    intros [= <- <-]; eapply askLoop_frame; exact E.
Qed.

Lemma affirmative_not_declining (line : string) :
  affirmative line = true -> declining line = false.
Proof.
  unfold affirmative, declining. cbv zeta.
  rewrite orb_true_iff, !String.eqb_eq. by intros [-> | ->].
Qed.




(** *** The path registrar *)

Lemma Sprintf_pathLine (installDir : string) :
  Sprintf pathLineFormat [installDir] = pathLine installDir.
Proof. reflexivity. Qed.

Lemma length_log (c : syscall) (w : World) :
  length (trace (log c w)) = S (length (trace w)).
Proof. simpl. rewrite length_app. simpl. lia. Qed.

(** The system calls, step by step. *)
Lemma os_OpenAppend_ok (path : string) (w : World) (f : File) :
  fs w !! path = Some f ->
  fails (host w) (length (trace w)) (SysOpenAppend path) = None ->
  os_OpenAppend path w = (inl (Ok tt), log (SysOpenAppend path) w).
Proof.
  intros Hf Hok. unfold os_OpenAppend, sys. go_unfold. rewrite Hok. simpl.
  by rewrite Hf.
Qed.

Lemma file_Write_ok (path text : string) (w : World) :
  fails (host w) (length (trace w)) (SysWrite path text) = None ->
  file_Write path text w =
  (inl (Ok tt), set_fs (append_data path text (fs w)) (log (SysWrite path text) w)).
Proof.
  intros Hok. unfold file_Write, sys. go_unfold. by rewrite Hok.
Qed.

Lemma exec_Run_result (argv : list string) (w : World) :
  exec_Run argv w =
  (inl (match fails (host w) (length (trace w)) (SysExec argv) with
        | Some e => Err e
        | None => Ok tt
        end), log (SysExec argv) w).
Proof.
  unfold exec_Run, sys. go_unfold. by destruct (fails _ _ _).
Qed.

Lemma posix_branch (h : Host) :
  posix h ->
  String.eqb (GOOS h) "windows" = false /\
  String.eqb (GOOS h) "darwin" || String.eqb (GOOS h) "linux" = true.
Proof. by intros [-> | ->]. Qed.

Lemma rcFile_branches (h : Host) :
  (if Contains (Getenv h "SHELL") "zsh"
   then Join (GOOS h) (Getenv h "HOME") ".zshrc"
   else Join (GOOS h) (Getenv h "HOME") ".bashrc") = rcFile h.
Proof. unfold rcFile. by destruct (Contains _ _). Qed.

(** On darwin and linux, when the resource file is there and neither the
    open nor the write is refused, the registrar has appended its line by the
    time it runs source. *)
Lemma addToPath_posix (installDir : string) (w : World) (f : File) :
  posix (host w) ->
  fs w !! rcFile (host w) = Some f ->
  fails (host w) (length (trace w)) (SysOpenAppend (rcFile (host w))) = None ->
  fails (host w) (S (length (trace w)))
        (SysWrite (rcFile (host w)) (pathLine installDir)) = None ->
  addToPath installDir w =
  exec_Run ["source"; rcFile (host w)]
    (set_fs (<[rcFile (host w) :=
                 mkFile (data f +:+ pathLine installDir) (mode f)]> (fs w))
       (log (SysWrite (rcFile (host w)) (pathLine installDir))
          (log (SysOpenAppend (rcFile (host w))) w))).
Proof.
  intros Hposix Hf Hopen Hwrite.
  apply posix_branch in Hposix as [Hwin Hunix].
  unfold addToPath. rewrite Sprintf_pathLine.
  unfold mbind, Go_bind, bind, getHost.
  rewrite Hwin, Hunix, rcFile_branches.
  rewrite (os_OpenAppend_ok _ _ f Hf Hopen).
  rewrite file_Write_ok by (rewrite length_log; exact Hwrite).
  unfold append_data. simpl fs. by rewrite Hf.
Qed.




Lemma append_longer (s t : string) : t <> "" -> s +:+ t <> s.
Proof.
  intros Ht E. apply (f_equal String.length) in E. rewrite length_append in E.
  destruct t; [done | simpl in E; lia].
Qed.

(** C10: on darwin and linux the registrar appends its line and only then
    runs source, whose error it returns: when the open and the write went
    through and source fails, the registrar reports that error and the file
    holds the new line all the same, so it is no longer what it was. *)
Theorem C10_error_after_append (installDir : string) (w : World) (f : File) (e : error) :
  let h := host w in
  let rc := rcFile h in
  let line := pathLine installDir in
  let n := length (trace w) in
  posix h ->
  fs w !! rc = Some f ->
  fails h n (SysOpenAppend rc) = None ->
  fails h (S n) (SysWrite rc line) = None ->
  fails h (S (S n)) (SysExec ["source"; rc]) = Some e ->
  exists w',
    addToPath installDir w = (inl (Err e), w') /\
    trace w' = trace w ++ [SysOpenAppend rc; SysWrite rc line; SysExec ["source"; rc]] /\
    fs w' !! rc = Some (mkFile (data f +:+ line) (mode f)) /\
    fs w' !! rc <> fs w !! rc.
Proof.
  intros h rc line n Hposix Hf Hopen Hwrite Hsource.
  rewrite (addToPath_posix installDir w f Hposix Hf Hopen Hwrite), exec_Run_result.
  eexists. split; [| split; [| split]].
  - simpl host. fold h rc.
    assert (length (trace (set_fs (<[rc := mkFile (data f +:+ pathLine installDir) (mode f)]> (fs w))
                (log (SysWrite rc (pathLine installDir)) (log (SysOpenAppend rc) w))))
            = S (S n)) as ->.
    { unfold n. simpl. rewrite !length_app. simpl. lia. }
    fold line. by rewrite Hsource.
  - simpl. by rewrite <- !app_assoc.
  - simpl. apply lookup_insert_eq.
  - simpl. fold rc. rewrite lookup_insert_eq, Hf. intros [= E].
    apply (f_equal data) in E. simpl in E. revert E. by apply append_longer.
Qed.

Lemma C10_error_after_append_witness :
  let h := example_host "linux" "amd64" [release_v120] binary_response source_not_found in
  let w := example_world h [] [("/home/u/.zshrc", mkFile "# rc" 420)] in
  let rc := "/home/u/.zshrc" in
  let line := pathLine "/home/u/.solvm" in
  exists w',
    addToPath "/home/u/.solvm" w =
    (inl (Err "exec: source: executable file not found in $PATH"), w') /\
    trace w' = [SysOpenAppend rc; SysWrite rc line; SysExec ["source"; rc]] /\
    fs w' !! rc = Some (mkFile ("# rc" +:+ line) 420) /\
    fs w' !! rc <> fs w !! rc.
Proof.
  intros h w rc line.
  apply (C10_error_after_append "/home/u/.solvm" w (mkFile "# rc" 420));
    [right; reflexivity | reflexivity | reflexivity | reflexivity | reflexivity].
Defined.

(** *** The run as a whole *)

Lemma bind_assoc {A B C} (m : Go A) (f : A -> Go B) (g : B -> Go C) (w : World) :
  bind (bind m f) g w = bind m (fun x => bind (f x) g) w.
Proof. unfold bind. by destruct (m w) as [[a | code] w']. Qed.

Lemma bind_ext {A B} (m : Go A) (k k' : A -> Go B) (w : World) :
  (forall a w', k a w' = k' a w') -> bind m k w = bind m k' w.
Proof. intros H. unfold bind. by destruct (m w) as [[a | code] w']. Qed.

Lemma ret_bind {A B} (a : A) (k : A -> Go B) (w : World) :
  bind (ret a) k w = k a w.
Proof. reflexivity. Qed.

Ltac go_norm :=
  repeat (cbv beta zeta; cbn [fst snd];
          first [ lazymatch goal with |- ?x = ?y => constr_eq x y end; reflexivity
                | rewrite bind_assoc
                | rewrite ret_bind
                | apply bind_ext; intros ? ? ]).

Lemma main_steps_eq (w : World) : main w = main_steps w.
Proof.
  unfold main_steps, main_setup, main_replace, main_select, main_download,
    main_place, main_register, main, tempPath, finalPath.
  unfold mbind, Go_bind, mret, Go_ret.
  go_norm.
Qed.


Lemma getHost_bind {B} (k : Host -> Go B) (w : World) :
  bind getHost k w = k (host w) w.
Proof. reflexivity. Qed.

Lemma main_steps_selected (w : World) :
  main_steps w =
  bind main_selected
    (fun selected =>
       bind (main_download (host w) selected.1 selected.2)
         (fun _ => bind (main_place (host w) selected.1 selected.2)
                     (fun _ => main_register selected.1))) w.
Proof.
  unfold main_steps, main_selected. unfold mbind, Go_bind, mret, Go_ret.
  rewrite bind_assoc, !getHost_bind. go_norm.
Qed.

Lemma main_steps_installed (w : World) :
  main_steps w = bind main_installed main_register w.
Proof.
  rewrite main_steps_selected. unfold main_installed.
  unfold mbind, Go_bind, mret, Go_ret.
  rewrite bind_assoc, getHost_bind. go_norm.
Qed.

(** **** What a step respects *)

Section Respects.
Context (R : relation World) `{!PreOrder R}.

Lemma respects_ret {A} (a : A) : respects R (ret a).
Proof. by intros w r w' [= <- <-]. Qed.

Lemma respects_exit {A} (code : Z) : respects R (@os_Exit A code).
Proof. by intros w r w' [= <- <-]. Qed.

Lemma respects_getHost : respects R getHost.
Proof. by intros w r w' [= <- <-]. Qed.

Lemma respects_getFs : respects R getFs.
Proof. by intros w r w' [= <- <-]. Qed.

Lemma respects_bind {A B} (m : Go A) (k : A -> Go B) :
  respects R m -> (forall a, respects R (k a)) -> respects R (bind m k).
Proof.
  intros Hm Hk w r w'. unfold bind.
  destruct (m w) as [[a | code] w1] eqn:E; apply Hm in E.
  - intros H. apply Hk in H. by etrans.
  - by intros [= <- <-].
Qed.
End Respects.

#[local] Instance same_files_preorder : PreOrder same_files.
Proof.
  split; [by intros w |].
  intros w1 w2 w3 [? ?] [? ?]. split; congruence.
Qed.

#[local] Instance same_requests_preorder : PreOrder same_requests.
Proof.
  split; [by intros w |].
  intros w1 w2 w3 [? ?] [? ?]. split; congruence.
Qed.

Create HintDb respects.
#[local] Hint Resolve respects_ret respects_exit respects_getHost respects_getFs : respects.

Ltac respects_steps :=
  unfold mbind, Go_bind, mret, Go_ret;
  repeat first
    [ solve [auto with respects typeclass_instances]
    | apply respects_bind; [apply _ | | intros ?]
    | match goal with
      | |- respects _ (match ?x with _ => _ end) => destruct x
      end ].

Lemma requests_snoc (t : list syscall) (c : syscall) :
  (forall url, c <> SysHttpGet url) -> requests (t ++ [c]) = requests t.
Proof.
  intros Hc. unfold requests. rewrite omap_app. simpl.
  destruct c; try by rewrite app_nil_r. by destruct (Hc url).
Qed.

Lemma requests_prompts (t : list syscall) (message : string) (n : nat) :
  requests (t ++ replicate n (prompt message)) = requests t.
Proof.
  unfold requests. rewrite omap_app.
  assert (omap (fun c => match c with SysHttpGet url => Some url | _ => None end)
               (replicate n (prompt message)) = []) as ->; [| by rewrite app_nil_r].
  induction n as [| n IH]; [done | exact IH].
Qed.

Lemma keeps_Print (c : colour) (text : string) : keeps (Print c text).
Proof. by intros w r w' [= <- <-]. Qed.

Lemma silent_Print (c : colour) (text : string) : silent (Print c text).
Proof.
  intros w r w' [= <- <-]. split; [done |]. by apply requests_snoc.
Qed.

Lemma keeps_color (c : colour) (format : string) (args : list string) :
  keeps (color c format args).
Proof. destruct args; apply keeps_Print. Qed.

Lemma silent_color (c : colour) (format : string) (args : list string) :
  silent (color c format args).
Proof. destruct args; apply silent_Print. Qed.

Lemma keeps_sys (c : syscall) : keeps (sys c).
Proof. by intros w r w' [= <- <-]. Qed.

Lemma silent_sys (c : syscall) : (forall url, c <> SysHttpGet url) -> silent (sys c).
Proof.
  intros Hc w r w' [= <- <-]. split; [done |]. by apply requests_snoc.
Qed.

Lemma keeps_http_Get (url : string) : keeps (http_Get url).
Proof. by intros w r w' [= <- <-]. Qed.

Lemma keeps_askForConfirmation (message : string) : keeps (askForConfirmation message).
Proof.
  intros w r w' H. apply askForConfirmation_frame in H as (? & ? & _). by split.
Qed.

Lemma silent_askForConfirmation (message : string) : silent (askForConfirmation message).
Proof.
  intros w r w' H. apply askForConfirmation_frame in H as (? & _ & n & Ht).
  split; [done |]. rewrite Ht. apply requests_prompts.
Qed.

#[local] Hint Resolve keeps_Print silent_Print keeps_color silent_color keeps_sys
  keeps_http_Get keeps_askForConfirmation silent_askForConfirmation : respects.

Lemma os_Stat_world (path : string) (w : World) :
  (os_Stat path w).2 = log (SysStat path) w.
Proof.
  unfold os_Stat, sys. go_unfold.
  destruct (fails _ _ _); simpl; by destruct (fs w !! path).
Qed.

Lemma keeps_os_Stat (path : string) : keeps (os_Stat path).
Proof.
  intros w r w' H. pose proof (os_Stat_world path w) as E. rewrite H in E.
  simpl in E. by subst.
Qed.

Lemma silent_os_Stat (path : string) : silent (os_Stat path).
Proof.
  intros w r w' H. pose proof (os_Stat_world path w) as E. rewrite H in E.
  simpl in E. subst. split; [done |]. by apply requests_snoc.
Qed.

Lemma keeps_os_MkdirAll (path : string) (perm : N) : keeps (os_MkdirAll path perm).
Proof. unfold os_MkdirAll. respects_steps. Qed.

#[local] Hint Resolve keeps_os_Stat silent_os_Stat keeps_os_MkdirAll : respects.

Lemma keeps_checkExistingInstallation (installDir : string) :
  keeps (checkExistingInstallation installDir).
Proof.
  unfold checkExistingInstallation.
  respects_steps.
Qed.

Lemma silent_checkExistingInstallation (installDir : string) :
  silent (checkExistingInstallation installDir).
Proof.
  unfold checkExistingInstallation.
  respects_steps.
Qed.

Lemma keeps_getLatestRelease : keeps getLatestRelease.
Proof. unfold getLatestRelease. respects_steps. Qed.

Lemma getSystemAsset_pure (release : Release) (w : World) :
  (getSystemAsset release w).2 = w.
Proof.
  unfold getSystemAsset. go_unfold. cbn.
  repeat match goal with
         | |- context [if ?b then _ else _] => destruct b
         | |- context [match ?x with _ => _ end] => destruct x
         end; reflexivity.
Qed.

Lemma keeps_getSystemAsset (release : Release) : keeps (getSystemAsset release).
Proof.
  intros w r w' H. pose proof (getSystemAsset_pure release w) as E.
  rewrite H in E. simpl in E. by subst.
Qed.

#[local] Hint Resolve keeps_checkExistingInstallation silent_checkExistingInstallation
  keeps_getLatestRelease keeps_getSystemAsset : respects.

Lemma keeps_main_setup (h : Host) : keeps (main_setup h).
Proof. unfold main_setup. respects_steps. Qed.

Lemma silent_main_setup (h : Host) : silent (main_setup h).
Proof. unfold main_setup. respects_steps. Qed.

Lemma keeps_main_replace (installDir : string) : keeps (main_replace installDir).
Proof. unfold main_replace. respects_steps. Qed.

Lemma keeps_main_select (h : Host) (installDir : string) :
  keeps (main_select h installDir).
Proof. unfold main_select. respects_steps. Qed.

Lemma keeps_main_selected : keeps main_selected.
Proof.
  pose proof keeps_main_setup. pose proof keeps_main_replace.
  pose proof keeps_main_select. unfold main_selected. respects_steps.
Qed.

(** **** The steps, read backwards *)

Lemma bind_inv {A B} (m : Go A) (k : A -> Go B) (w : World) (r : B + Z) (w' : World) :
  bind m k w = (r, w') ->
  (exists a w1, m w = (inl a, w1) /\ k a w1 = (r, w')) \/
  (exists code, m w = (inr code, w') /\ r = inr code).
Proof.
  unfold bind. destruct (m w) as [[a | code] w1]; [by eauto |].
  intros [= <- <-]. eauto.
Qed.

Lemma bind_inl {A B} (m : Go A) (k : A -> Go B) (w : World) (b : B) (w' : World) :
  bind m k w = (inl b, w') ->
  exists a w1, m w = (inl a, w1) /\ k a w1 = (inl b, w').
Proof.
  intros H. apply bind_inv in H as [H | (code & _ & H)]; [done | discriminate].
Qed.

(** A run of [main_select] that hands over an asset has matched it on a
    supported platform. *)
Lemma main_select_asset (installDir : string) (w : World) (asset : Asset) (w' : World) :
  main_select (host w) installDir w = (inl asset, w') ->
  GOOS (host w) ∈ supported_os /\ GOARCH (host w) ∈ supported_arch /\
  Name asset = expected_filename (GOOS (host w)) (GOARCH (host w)).
Proof.
  unfold main_select. unfold mbind, Go_bind, mret, Go_ret. intros H.
  apply bind_inl in H as (r & w1 & E1 & H).
  apply keeps_getLatestRelease in E1 as [Hh1 _].
  apply bind_inl in H as (release & w2 & E2 & H).
  assert (host w2 = host w1) as Hh2.
  { destruct r as [rel | e].
    - unfold ret in E2. by simplify_eq.
    - apply bind_inl in E2 as (? & ? & ? & E2). discriminate. }
  apply bind_inl in H as (? & w3 & E3 & H).
  apply keeps_color in E3 as [Hh3 _].
  apply bind_inl in H as (found & w4 & E4 & H).
  apply bind_inl in H as (a & w5 & E5 & H).
  destruct found as [a' | e].
  - unfold ret in E5. simplify_eq.
    apply getSystemAsset_Ok in E4.
    replace (host w3) with (host w) in E4 by congruence.
    apply bind_inl in H as (? & w6 & ? & H).
    apply bind_inl in H as (install & w7 & ? & H).
    apply bind_inl in H as (? & w8 & ? & H).
    apply bind_inl in H as (made & w9 & ? & H).
    apply bind_inl in H as (? & w10 & ? & H).
    apply bind_inl in H as (? & w11 & ? & H).
    unfold ret in H. by simplify_eq.
  - apply bind_inl in E5 as (? & ? & ? & E5). discriminate.
Qed.

(** **** The download touches one path *)

(** A plain name joined to a directory comes last in the result, as it
    is: the result is a prefix, which the directory decides, and the name. *)
Lemma append_String (s t : string) (c : ascii) :
  (s +:+ String c EmptyString) +:+ t = s +:+ String c t.
Proof. by rewrite <- append_assoc. Qed.

Lemma scan_append (goos : string) (rooted : bool) (x y : string) :
  forall kept cur,
    scan goos rooted kept cur (x +:+ y) =
    scan goos rooted (scan goos rooted kept cur x).1 (scan goos rooted kept cur x).2 y.
Proof.
  induction x as [| c x IH]; intros kept cur; [reflexivity |].
  change (String c x +:+ y) with (String c (x +:+ y)). simpl.
  destruct (isSlash goos c); apply IH.
Qed.

Lemma plainChars_not_slash (goos : string) (c : ascii) (s : string) :
  plainChars (String c s) = true ->
  isSlash goos c = false /\ Ascii.eqb c ":" = false /\ plainChars s = true.
Proof.
  simpl. unfold isSlash. intros H. apply andb_true_iff in H as [H1 H2].
  apply negb_true_iff in H1. apply orb_false_iff in H1 as [H1 H3].
  apply orb_false_iff in H1 as [H1 H4]. rewrite H1, H4, H3.
  by destruct (String.eqb goos "windows").
Qed.

Lemma scan_plain (goos : string) (rooted : bool) (a : string) :
  plainChars a = true ->
  forall kept cur, scan goos rooted kept cur a = (kept, cur +:+ a).
Proof.
  induction a as [| c a IH]; intros Hplain kept cur.
  - by rewrite append_empty_r.
  - apply (plainChars_not_slash goos) in Hplain as (Hc & _ & Ha).
    simpl. rewrite Hc, IH by done. by rewrite append_String.
Qed.

Lemma joinElements_last (sep : string) (elements : list string) :
  exists pre, forall e, joinElements sep (elements ++ [e]) = pre +:+ e.
Proof.
  induction elements as [| x rest [pre IH]].
  - by exists EmptyString.
  - exists (x +:+ sep +:+ pre). intros e.
    change ((x :: rest) ++ [e]) with (x :: (rest ++ [e])). simpl.
    destruct (rest ++ [e]) as [| y l] eqn:E; [destruct rest; simpl in E; discriminate |].
    rewrite <- E, IH. by rewrite <- !append_assoc.
Qed.

Lemma lastChar_None (s : string) : lastChar s = None -> s = EmptyString.
Proof. destruct s as [| c s]; [done |]. simpl. by destruct (lastChar s). Qed.

Lemma lastChar_append (s : string) (c : ascii) :
  lastChar s = Some c -> exists s', s = s' +:+ String c EmptyString.
Proof.
  revert c. induction s as [| d s IH]; intros c; [discriminate |]. simpl.
  destruct (lastChar s) as [l |] eqn:E.
  - intros [= ->]. destruct (IH c eq_refl) as [s' ->]. by exists (String d s').
  - intros [= ->]. apply lastChar_None in E as ->. by exists EmptyString.
Qed.

Lemma lastChar_snoc (s : string) (c : ascii) :
  lastChar (s +:+ String c EmptyString) = Some c.
Proof.
  induction s as [| d s IH]; [reflexivity |].
  change (lastChar (String d (s +:+ String c EmptyString)) = Some c).
  simpl. by rewrite IH.
Qed.

Lemma Contains_colon (s t : string) : Contains (s +:+ String ":" t) ":" = true.
Proof.
  induction s as [| c s IH].
  - change (Contains (String ":" t) ":" = true). simpl. by destruct t.
  - change (Contains (String c (s +:+ String ":" t)) ":" = true).
    simpl. rewrite IH. apply orb_true_r.
Qed.

(** The element being read when a directory has been scanned, with a plain
    name after it, is kept as it stands when the directory ended in a slash
    or in a colon, or was empty. *)
Lemma keep_plain_after (rooted : bool) (kept : list string) (cur a : string) :
  plainName a = true ->
  cur = EmptyString \/ (exists cur', cur = cur' +:+ String ":" EmptyString) ->
  keep rooted kept (cur +:+ a) = (cur +:+ a) :: kept.
Proof.
  intros Ha Hcur. unfold plainName in Ha. apply andb_true_iff in Ha as [Hplain Hne].
  apply negb_true_iff in Hne.
  assert (String.eqb (cur +:+ a) "" || String.eqb (cur +:+ a) "."
          || String.eqb (cur +:+ a) ".." = false) as Hnormal.
  { destruct Hcur as [-> | [cur' ->]]; [exact Hne |].
    rewrite append_String. pose proof (Contains_colon cur' a) as Hcolon.
    rewrite !orb_false_iff, !String.eqb_neq.
    repeat split; intros E; rewrite E in Hcolon; discriminate. }
  unfold keep. apply orb_false_iff in Hnormal as [H1 H2]. by rewrite H1, H2.
Qed.

Lemma scan_ends (goos : string) (rooted : bool) (rest : string) :
  match lastChar rest with
  | None => True
  | Some c => isSlash goos c = true \/ c = ":"%char /\ isSlash goos c = false
  end ->
  let cur := (scan goos rooted [] EmptyString rest).2 in
  cur = EmptyString \/ (exists cur', cur = cur' +:+ String ":" EmptyString).
Proof.
  destruct (lastChar rest) as [c |] eqn:E.
  - apply lastChar_append in E as [r ->]. intros H cur. unfold cur.
    rewrite scan_append. simpl.
    destruct H as [-> | [-> ->]]; [by left |]. right. eauto.
  - apply lastChar_None in E as ->. by left.
Qed.

(** The volume of a path is that of the directory it begins with, when a
    plain name follows. *)
Lemma volumeName_plain (goos x a : string) :
  plainName a = true ->
  volumeName goos (x +:+ a) = ((volumeName goos x).1, (volumeName goos x).2 +:+ a).
Proof.
  intros Ha. unfold plainName in Ha. apply andb_true_iff in Ha as [Hplain Hne].
  unfold volumeName. destruct (String.eqb goos "windows"); [| reflexivity].
  destruct x as [| c1 [| c2 x]].
  - change (EmptyString +:+ a) with a.
    destruct a as [| d1 [| d2 a]]; try reflexivity.
    apply (plainChars_not_slash goos) in Hplain as (_ & _ & Hplain).
    apply (plainChars_not_slash goos) in Hplain as (_ & -> & _). reflexivity.
  - change (String c1 EmptyString +:+ a) with (String c1 a).
    destruct a as [| d1 a]; [discriminate |].
    apply (plainChars_not_slash goos) in Hplain as (_ & -> & _). reflexivity.
  - change (String c1 (String c2 x) +:+ a) with (String c1 (String c2 (x +:+ a))).
    cbv beta iota. destruct (Ascii.eqb c2 ":"); reflexivity.
Qed.

Lemma lastChar_volume (goos x : string) :
  lastChar (volumeName goos x).2 = None \/
  lastChar (volumeName goos x).2 = lastChar x.
Proof.
  unfold volumeName. destruct (String.eqb goos "windows"); [| by right].
  destruct x as [| c1 [| c2 x]]; try by right.
  destruct (Ascii.eqb c2 ":"); [| by right]. simpl.
  destruct (lastChar x); [by right | by left].
Qed.

Lemma rooted_plain (goos rest a : string) :
  plainName a = true ->
  match rest +:+ a with String c _ => isSlash goos c | EmptyString => false end =
  match rest with String c _ => isSlash goos c | EmptyString => false end.
Proof.
  intros Ha. destruct rest as [| c rest]; [| reflexivity].
  change (EmptyString +:+ a) with a. unfold plainName in Ha.
  apply andb_true_iff in Ha as [Hplain _]. destruct a as [| d a]; [done |].
  by apply (plainChars_not_slash goos) in Hplain as (-> & _).
Qed.

(** Cleaning a path made of a directory part that is empty or ends in a
    slash or a colon, and of a plain name. *)
Lemma Clean_plain (goos x : string) :
  match lastChar x with
  | None => True
  | Some c => isSlash goos c = true \/ c = ":"%char /\ isSlash goos c = false
  end ->
  exists pre, forall a, plainName a = true -> Clean goos (x +:+ a) = pre +:+ a.
Proof.
  intros Hlast.
  set (rest := (volumeName goos x).2).
  set (rooted := match rest with String c _ => isSlash goos c | EmptyString => false end).
  assert (match lastChar rest with
          | None => True
          | Some c => isSlash goos c = true \/ c = ":"%char /\ isSlash goos c = false
          end) as Hrest.
  { destruct (lastChar_volume goos x) as [E | E]; fold rest in E; by rewrite E. }
  pose proof (scan_ends goos rooted rest Hrest) as Hcur.
  destruct (scan goos rooted [] EmptyString rest) as [kept cur] eqn:Escan.
  simpl in Hcur.
  destruct (joinElements_last (Separator goos) (rev kept)) as [pre Hpre].
  exists ((volumeName goos x).1 +:+ (if rooted then Separator goos else "") +:+ pre +:+ cur).
  intros a Ha. unfold Clean. rewrite (volumeName_plain goos x a Ha). fold rest.
  rewrite (rooted_plain goos rest a Ha). fold rooted.
  unfold plainName in Ha. apply andb_true_iff in Ha as Ha'. destruct Ha' as [Hplain _].
  rewrite scan_append, Escan. cbn [fst snd]. rewrite scan_plain by done.
  rewrite (keep_plain_after rooted kept cur a Ha Hcur).
  change (rev ((cur +:+ a) :: kept)) with (rev kept ++ [cur +:+ a]).
  destruct (rev kept ++ [cur +:+ a]) as [| y l] eqn:E.
  { destruct (rev kept); simpl in E; discriminate. }
  rewrite <- E, Hpre. by rewrite <- !append_assoc.
Qed.

Lemma stripSlashes_plain (goos a : string) :
  plainName a = true -> stripSlashes goos a = a.
Proof.
  unfold plainName. intros Ha. apply andb_true_iff in Ha as [Hplain _].
  destruct a as [| c a]; [done |].
  apply (plainChars_not_slash goos) in Hplain as (Hc & _). simpl. by rewrite Hc.
Qed.

Lemma Join_plain (goos dir : string) :
  exists pre, forall a, plainName a = true -> Join goos dir a = pre +:+ a.
Proof.
  assert (forall a, plainName a = true -> String.eqb a "" = false) as Hne.
  { intros [| c a] Ha; [discriminate | reflexivity]. }
  unfold Join. destruct (String.eqb dir "") eqn:Edir.
  { destruct (Clean_plain goos EmptyString I) as [pre Hpre].
    exists pre. intros a Ha. rewrite (Hne a Ha). by apply Hpre. }
  destruct (String.eqb goos "windows") eqn:Ewin.
  - destruct (lastChar dir) as [c |] eqn:Elast.
    + destruct (isSlash goos c) eqn:Eslash; [| destruct (Ascii.eqb_spec c ":") as [-> | Hc]].
      * destruct (Clean_plain goos dir) as [pre Hpre]; [rewrite Elast; by left |].
        exists pre. intros a Ha. rewrite (Hne a Ha), stripSlashes_plain by done.
        by apply Hpre.
      * destruct (Clean_plain goos dir) as [pre Hpre]; [rewrite Elast; by right |].
        exists pre. intros a Ha. rewrite (Hne a Ha). by apply Hpre.
      * destruct (Clean_plain goos (dir +:+ "\")) as [pre Hpre].
        { rewrite lastChar_snoc. left. unfold isSlash. rewrite Ewin. reflexivity. }
        exists pre. intros a Ha. rewrite (Hne a Ha).
        rewrite <- (Hpre a Ha). by rewrite <- append_assoc.
    + apply lastChar_None in Elast as ->. discriminate.
  - destruct (Clean_plain goos (dir +:+ "/")) as [pre Hpre].
    { rewrite lastChar_snoc. by left. }
    exists pre. intros a Ha. rewrite (Hne a Ha).
    rewrite <- (Hpre a Ha). by rewrite <- append_assoc.
Qed.

Lemma Join_inj (goos dir a b : string) :
  plainName a = true -> plainName b = true ->
  Join goos dir a = Join goos dir b -> a = b.
Proof.
  intros Ha Hb. destruct (Join_plain goos dir) as [pre Hpre].
  rewrite !Hpre by done. apply (inj (String.append pre)).
Qed.

Lemma temp_is_not_final (h : Host) (installDir : string) (asset : Asset) :
  GOOS h ∈ supported_os -> GOARCH h ∈ supported_arch ->
  Name asset = expected_filename (GOOS h) (GOARCH h) ->
  tempPath h installDir asset <> finalPath h installDir.
Proof.
  intros Hos Harch Hname E. unfold tempPath, finalPath in E. rewrite Hname in E.
  apply supported_os_cases in Hos. apply supported_arch_cases in Harch.
  revert E.
  destruct Hos as [-> | [-> | ->]], Harch as [-> | ->]; intros E;
    apply Join_inj in E; try reflexivity; cbv in E; discriminate.
Qed.

Lemma append_data_other (path text : string) (f : gmap string File) (p : string) :
  p <> path -> append_data path text f !! p = f !! p.
Proof.
  intros Hne. unfold append_data. destruct (f !! path); [| done].
  by rewrite lookup_insert_ne.
Qed.

Lemma os_Create_frame (path : string) (w : World) (r : result unit + Z) (w' : World) :
  os_Create path w = (r, w') -> same_off path w w'.
Proof.
  unfold os_Create, sys. go_unfold.
  destruct (fails _ _ _); intros [= <- <-]; split; try done.
  intros p Hne. simpl. by rewrite lookup_insert_ne.
Qed.

Lemma file_Write_frame (path text : string) (w : World) (r : result unit + Z) (w' : World) :
  file_Write path text w = (r, w') -> same_off path w w'.
Proof.
  unfold file_Write, sys. go_unfold.
  destruct (fails _ _ _); intros [= <- <-]; split; try done;
    intros p Hne; simpl; by rewrite append_data_other.
Qed.

Lemma io_Copy_frame (dest : string) (resp : Response) (w : World)
    (r : result unit + Z) (w' : World) :
  io_Copy dest resp w = (r, w') -> same_off dest w w'.
Proof.
  unfold io_Copy. unfold mbind, Go_bind, mret, Go_ret. intros H.
  apply bind_inv in H as [(wr & w1 & E & H) | (code & E & _)].
  - assert (same_off dest w w1) as Hw1.
    { destruct (String.eqb (Body resp) "").
      - unfold ret in E. by simplify_eq.
      - by apply file_Write_frame in E. }
    assert (w' = w1) as ->; [| done].
    destruct wr; [destruct (BodyErr resp) |]; unfold ret in H; by simplify_eq.
  - destruct (String.eqb (Body resp) ""); [discriminate |].
    by apply file_Write_frame in E.
Qed.

Lemma downloadFile_frame (url dest : string) (w : World) (r : result unit + Z) (w' : World) :
  downloadFile url dest w = (r, w') -> same_off dest w w'.
Proof.
  unfold downloadFile, http_Get. go_unfold.
  destruct (http _ _ _) as [resp | e]; [| by intros [= <- <-]].
  destruct (negb _); [by intros [= <- <-] |].
  destruct (os_Create dest _) as [[[[] | e] | code] w1] eqn:E1;
    apply os_Create_frame in E1 as [Hh1 Hf1].
  - intros H. apply io_Copy_frame in H as [Hh Hf]. split; [by rewrite Hh |].
    intros p Hne. by rewrite Hf, Hf1.
  - by intros [= <- <-].
  - by intros [= <- <-].
Qed.

Lemma main_selected_asset (w : World) (installDir : string) (asset : Asset) (w1 : World) :
  main_selected w = (inl (installDir, asset), w1) ->
  GOOS (host w) ∈ supported_os /\ GOARCH (host w) ∈ supported_arch /\
  Name asset = expected_filename (GOOS (host w)) (GOARCH (host w)).
Proof.
  unfold main_selected. unfold mbind, Go_bind, mret, Go_ret.
  rewrite getHost_bind. intros H.
  apply bind_inl in H as (dir & wa & Ea & H).
  apply keeps_main_setup in Ea as [Ha _].
  apply bind_inl in H as (? & wb & Eb & H).
  apply keeps_main_replace in Eb as [Hb _].
  apply bind_inl in H as (a & wc & Ec & H).
  unfold ret in H. simplify_eq.
  replace (host w) with (host wb) in * by congruence.
  by apply main_select_asset in Ec.
Qed.

(** *** End to end *)

(** C6: when the download fails, the run ends with os.Exit(1), and the
    files are what they were before the run everywhere but at the temporary
    path, which is not the final path: nothing is created at
    <home>/.solvm/solvm (or solvm.exe). *)
Theorem C6_failed_download (w w1 w2 : World) (installDir : string) (asset : Asset)
    (err : error) :
  let h := host w in
  main_selected w = (inl (installDir, asset), w1) ->
  downloadFile (BrowserDownloadURL asset) (tempPath h installDir asset) w1 =
    (inl (Err err), w2) ->
  exists w',
    main w = (inr 1, w') /\
    exit_code (main w).1 = 1 /\
    tempPath h installDir asset <> finalPath h installDir /\
    fs w' !! finalPath h installDir = fs w !! finalPath h installDir /\
    forall p, p <> tempPath h installDir asset -> fs w' !! p = fs w !! p.
Proof.
  intros h Hsel Hdl.
  pose proof (main_selected_asset _ _ _ _ Hsel) as (Hos & Harch & Hname).
  pose proof (temp_is_not_final h installDir asset Hos Harch Hname) as Hne.
  pose proof (keeps_main_selected _ _ _ Hsel) as [_ Hf1].
  pose proof (downloadFile_frame _ _ _ _ _ Hdl) as [_ Hf2].
  exists (log (SysPrint Red ("Error downloading file: " +:+ err)) w2).
  assert (main w = (inr 1, log (SysPrint Red ("Error downloading file: " +:+ err)) w2))
    as Hmain.
  { rewrite main_steps_eq, main_steps_selected. unfold bind at 1. rewrite Hsel.
    cbn [fst snd]. unfold main_download, mbind, Go_bind.
    rewrite bind_assoc. unfold bind at 1. fold h. rewrite Hdl.
    unfold bind, color, Print, os_Exit. cbn [Sprintf Ascii.eqb Bool.eqb orb].
    by rewrite append_empty_r. }
  rewrite Hmain. repeat split; [done | |].
  - simpl. rewrite Hf2 by done. by rewrite Hf1.
  - intros p Hp. simpl. rewrite Hf2 by done. by rewrite Hf1.
Qed.

Lemma C6_failed_download_witness :
  let h := example_host "linux" "amd64" [release_v120] broken_response no_faults in
  let w := example_world h ["y" +:+ nl] [] in
  let temp := "/home/u/.solvm/solvm-linux-amd64" in
  let final := "/home/u/.solvm/solvm" in
  exists w',
    main w = (inr 1, w') /\
    exit_code (main w).1 = 1 /\
    temp <> final /\
    fs w' !! final = None /\
    forall p, p <> temp -> fs w' !! p = fs w !! p.
Proof.
  intros h w temp final.
  apply (C6_failed_download w (main_selected w).2
           (downloadFile "U2" temp (main_selected w).2).2
           "/home/u/.solvm" (mkAsset "solvm-linux-amd64" "U2") "unexpected EOF");
    vm_compute; reflexivity.
Defined.

(** C7: when an installation is found and the user declines the first
    question, the run ends with os.Exit(0) and has made no network request:
    the requests of the trace are those it started with. *)
Theorem C7_declined_replacement (w w1 w2 w3 : World) (installDir : string) :
  main_setup (host w) w = (inl installDir, w1) ->
  checkExistingInstallation installDir w1 = (inl true, w2) ->
  askForConfirmation "SolVM is already installed. Do you want to replace it?" w2 =
    (inl false, w3) ->
  exists w',
    main w = (inr 0, w') /\
    exit_code (main w).1 = 0 /\
    requests (trace w') = requests (trace w).
Proof.
  intros Hsetup Hcheck Hask.
  exists (log (SysPrint Yellow "Installation cancelled") w3).
  assert (main w = (inr 0, log (SysPrint Yellow "Installation cancelled") w3)) as Hmain.
  { rewrite main_steps_eq. unfold main_steps, main_replace.
    unfold mbind, Go_bind, mret, Go_ret. rewrite getHost_bind.
    unfold bind. by rewrite Hsetup, Hcheck, Hask. }
  rewrite Hmain. repeat split.
  apply silent_main_setup in Hsetup as [_ E1].
  apply silent_checkExistingInstallation in Hcheck as [_ E2].
  apply silent_askForConfirmation in Hask as [_ E3].
  simpl. rewrite requests_snoc by done. congruence.
Qed.

Lemma C7_declined_replacement_witness :
  let w := example_world linux_host ["n" +:+ nl]
             [("/home/u/.solvm/solvm", mkFile "old" 493)] in
  exists w',
    main w = (inr 0, w') /\
    exit_code (main w).1 = 0 /\
    requests (trace w') = [].
Proof.
  intros w.
  apply (C7_declined_replacement w
           (main_setup (host w) w).2
           (checkExistingInstallation "/home/u/.solvm" (main_setup (host w) w).2).2
           (askForConfirmation "SolVM is already installed. Do you want to replace it?"
              (checkExistingInstallation "/home/u/.solvm" (main_setup (host w) w).2).2).2
           "/home/u/.solvm");
    vm_compute; reflexivity.
Defined.

(** C8: when the user accepts the registration on the PATH and the
    registrar returns an error, the run prints the error and the advice to
    add the directory by hand, goes on to its two closing messages, and
    returns from main: exit code 0. *)
Theorem C8_soft_path_failure (w w1 w2 w3 : World) (installDir : string) (err : error) :
  main_installed w = (inl installDir, w1) ->
  askForConfirmation "Do you want to add SolVM to your PATH?" w1 = (inl true, w2) ->
  addToPath installDir (log (SysPrint Yellow "Adding to PATH...") w2) =
    (inl (Err err), w3) ->
  exists w',
    main w = (inl tt, w') /\
    exit_code (main w).1 = 0 /\
    trace w' = trace w3 ++
      [SysPrint Red ("Error adding to PATH: " +:+ err);
       SysPrint Yellow ("Please manually add to PATH: " +:+ installDir);
       SysPrint Green "Installation complete!";
       SysPrint Green "Please restart your terminal to use SolVM"].
Proof.
  intros Hinst Hask Hadd.
  set (w' := log (SysPrint Green "Please restart your terminal to use SolVM")
               (log (SysPrint Green "Installation complete!")
                  (log (SysPrint Yellow ("Please manually add to PATH: " +:+ installDir))
                     (log (SysPrint Red ("Error adding to PATH: " +:+ err)) w3)))).
  assert (main w = (inl tt, w')) as Hmain.
  { rewrite main_steps_eq, main_steps_installed. unfold bind at 1. rewrite Hinst.
    unfold main_register. unfold mbind, Go_bind, mret, Go_ret.
    unfold bind at 1. rewrite Hask. cbn [negb].
    rewrite bind_assoc. unfold bind at 1. unfold color at 1. unfold Print at 1.
    rewrite bind_assoc. unfold bind at 1. rewrite Hadd.
    unfold bind, color, Print. cbn [Sprintf Ascii.eqb Bool.eqb orb].
    by rewrite !append_empty_r. }
  exists w'. rewrite Hmain. repeat split.
  unfold w'. simpl. by rewrite <- !app_assoc.
Qed.

Lemma C8_soft_path_failure_witness :
  let h := example_host "linux" "amd64" [release_v120] binary_response source_not_found in
  let w := example_world h ["y" +:+ nl; "y" +:+ nl]
             [("/home/u/.zshrc", mkFile "# rc" 420)] in
  let w3 := (addToPath "/home/u/.solvm"
               (log (SysPrint Yellow "Adding to PATH...")
                  (askForConfirmation "Do you want to add SolVM to your PATH?"
                     (main_installed w).2).2)).2 in
  exists w',
    main w = (inl tt, w') /\
    exit_code (main w).1 = 0 /\
    trace w' = trace w3 ++
      [SysPrint Red "Error adding to PATH: exec: source: executable file not found in $PATH";
       SysPrint Yellow "Please manually add to PATH: /home/u/.solvm";
       SysPrint Green "Installation complete!";
       SysPrint Green "Please restart your terminal to use SolVM"].
Proof.
  intros h w w3.
  apply (C8_soft_path_failure w (main_installed w).2
           (askForConfirmation "Do you want to add SolVM to your PATH?"
              (main_installed w).2).2
           w3 "/home/u/.solvm"
           "exec: source: executable file not found in $PATH");
    vm_compute; reflexivity.
Defined.

(** *** The model at work *)

(** The six names of the matcher. *)
Example assetName_table :
  assetName "windows" "amd64" = "solvm-windows-amd64.exe" /\
  assetName "windows" "arm64" = "solvm-windows-arm64.exe" /\
  assetName "darwin" "amd64" = "solvm-darwin-amd64" /\
  assetName "darwin" "arm64" = "solvm-darwin-arm64" /\
  assetName "linux" "amd64" = "solvm-linux-amd64" /\
  assetName "linux" "arm64" = "solvm-linux-arm64".
Proof. repeat split. Qed.

(** A run on linux/amd64 with both questions answered y: the binary is at
    its final path, executable, nothing is left at the temporary path, and
    the run has made two requests. *)
Example run_linux_amd64 :
  let w := example_world linux_host ["y" +:+ nl; "Yes " +:+ nl]
             [("/home/u/.zshrc", mkFile "# rc" 420)] in
  let w' := (main w).2 in
  (main w).1 = inl tt /\
  fs w' !! "/home/u/.solvm/solvm" = Some (mkFile "ELF" 493) /\
  fs w' !! "/home/u/.solvm/solvm-linux-amd64" = None /\
  fs w' !! "/home/u/.zshrc" = Some (mkFile ("# rc" +:+ pathLine "/home/u/.solvm") 420) /\
  requests (trace w') = [releasesURL; "U2"].
Proof. vm_compute. repeat split. Qed.

(** An answer that is cut by the end of the input, with no line feed after
    it, is a failed read: the function returns false, even on y. *)
Example answer_without_newline :
  (askForConfirmation "Do you want to install SolVM?"
     (example_world linux_host ["y"] [])).1 = inl false.
Proof. reflexivity. Qed.

(** A reader takes a whole chunk: when both answers arrive in one read, the
    second question finds the input empty. *)
Example answers_in_one_chunk :
  let w := example_world linux_host ["y" +:+ nl +:+ "y" +:+ nl] [] in
  let w1 := (askForConfirmation "Do you want to install SolVM?" w).2 in
  (askForConfirmation "Do you want to install SolVM?" w).1 = inl true /\
  (askForConfirmation "Do you want to add SolVM to your PATH?" w1).1 = inl false.
Proof. split; reflexivity. Qed.

(** White space beyond ASCII is trimmed as well: a y between a wide space
    and a no-break space is a yes; a space inside a line stays. *)
Example trimmed_answers :
  TrimSpace (wideSpace +:+ " y" +:+ noBreakSpace +:+ nl) = "y" /\
  affirmative ("y" +:+ noBreakSpace +:+ nl) = true /\
  declining (noBreakSpace +:+ wideSpace +:+ nl) = true /\
  TrimSpace (" y" +:+ noBreakSpace +:+ "es " +:+ nl) = "y" +:+ noBreakSpace +:+ "es" /\
  (askForConfirmation "Do you want to install SolVM?"
     (example_world linux_host ["Y" +:+ noBreakSpace +:+ nl] [])).1 = inl true.
Proof. vm_compute. repeat split. Qed.

(** A joined path is cleaned: doubled and trailing slashes, dots and the
    elements that two dots take back are gone. *)
Example joined_paths :
  Join "linux" "/home/u/" ".zshrc" = "/home/u/.zshrc" /\
  Join "linux" "/" ".solvm" = "/.solvm" /\
  Join "linux" "/home/./u//x/.." ".solvm" = "/home/u/.solvm" /\
  Join "linux" "" ".bashrc" = ".bashrc" /\
  Join "linux" "../u" "solvm" = "../u/solvm" /\
  Join "windows" "C:\Users\u\" ".solvm" = "C:\Users\u\.solvm" /\
  Join "windows" "C:/Users/u" "solvm.exe" = "C:\Users\u\solvm.exe".
Proof. vm_compute. repeat split. Qed.

(** With HOME written /home/u/ the registrar still opens /home/u/.zshrc and
    appends its line there. *)
Example registration_with_trailing_slash :
  let w := example_world trailing_slash_host []
             [("/home/u/.zshrc", mkFile "# rc" 420)] in
  let w' := (addToPath "/home/u/.solvm" w).2 in
  rcFile (host w) = "/home/u/.zshrc" /\
  fs w' !! "/home/u/.zshrc" = Some (mkFile ("# rc" +:+ pathLine "/home/u/.solvm") 420).
Proof. vm_compute. repeat split. Qed.

(** A file that the download creates gets 0666 less the umask: 0644 under
    the usual umask 022. *)
Example created_mode :
  let w := example_world linux_host [] [] in
  fs (os_Create "/home/u/.solvm/solvm-linux-amd64" w).2
    !! "/home/u/.solvm/solvm-linux-amd64" = Some (mkFile "" 420).
Proof. vm_compute. reflexivity. Qed.

(** ** Further properties of the code *)

(** *** getLatestRelease and getSystemAsset *)

(** X1: the locator hands back the error of a failed request, or of a body
    that does not decode, as it is; in both cases it has made its one request
    and nothing else. *)
Theorem X1_locator_errors (w : World) (e : error) :
  http (host w) (length (trace w)) releasesURL = Err e \/
  (exists resp, http (host w) (length (trace w)) releasesURL = Ok resp /\
                decode (host w) resp = Err e) ->
  getLatestRelease w = (inl (Err e), log (SysHttpGet releasesURL) w).
Proof.
  unfold getLatestRelease, http_Get. go_unfold.
  intros [H | (resp & H & Hdec)]; rewrite H; [reflexivity |].
  cbn. by rewrite Hdec.
Qed.

Lemma X1_locator_errors_witness :
  let w := example_world offline_host [] [] in
  let w' := example_world garbled_host [] [] in
  getLatestRelease w =
    (inl (Err "dial tcp: no route to host"), log (SysHttpGet releasesURL) w) /\
  getLatestRelease w' =
    (inl (Err "json: cannot unmarshal object into Go value of type []main.Release"),
     log (SysHttpGet releasesURL) w').
Proof.
  intros w w'. split.
  - apply X1_locator_errors. left. reflexivity.
  - apply X1_locator_errors. right.
    exists (mkResponse 403 "403 Forbidden" (-1) "{...}" None). split; reflexivity.
Defined.

(** X2: the matcher looks at the operating system first: when it is not
    supported the error names it, whatever the architecture; the error names
    the architecture only when the system is supported. *)
Theorem X2_system_checked_first (w : World) (release : Release) :
  (GOOS (host w) ∉ supported_os ->
   getSystemAsset release w =
   (inl (Err ("unsupported operating system: " +:+ GOOS (host w))), w)) /\
  (GOOS (host w) ∈ supported_os -> GOARCH (host w) ∉ supported_arch ->
   getSystemAsset release w =
   (inl (Err ("unsupported architecture: " +:+ GOARCH (host w))), w)).
Proof.
  unfold getSystemAsset. go_unfold. split.
  - intros Hos. apply not_supported_os in Hos as (E1 & E2 & E3).
    cbn. rewrite E1, E2, E3. cbn. by rewrite append_empty_r.
  - intros Hos Harch. apply not_supported_arch in Harch as [E1 E2].
    apply supported_os_cases in Hos.
    destruct Hos as [-> | [-> | ->]]; cbn; rewrite E1, E2; cbn;
      by rewrite append_empty_r.
Qed.

Lemma X2_system_checked_first_witness :
  let w := example_world
             (example_host "freebsd" "riscv64" [release_v120] binary_response no_faults)
             [] [] in
  let w' := example_world
              (example_host "linux" "riscv64" [release_v120] binary_response no_faults)
              [] [] in
  getSystemAsset release_v120 w =
    (inl (Err "unsupported operating system: freebsd"), w) /\
  getSystemAsset release_v120 w' =
    (inl (Err "unsupported architecture: riscv64"), w').
Proof.
  intros w w'. split.
  - apply (proj1 (X2_system_checked_first w release_v120)).
    unfold supported_os. rewrite !not_elem_of_cons, elem_of_nil.
    repeat split; try discriminate. tauto.
  - apply (proj2 (X2_system_checked_first w' release_v120)).
    + repeat constructor.
    + unfold supported_arch. rewrite !not_elem_of_cons, elem_of_nil.
      repeat split; try discriminate. tauto.
Defined.

Lemma rangeAssets_app (name : string) (assets more : list Asset) (a : Asset) :
  rangeAssets name assets = Some a -> rangeAssets name (assets ++ more) = Some a.
Proof.
  induction assets as [| x rest IH]; simpl; [discriminate |].
  by destruct (String.eqb (Name x) name).
Qed.

(** X3: the match depends on the names up to the first hit only: once a
    release yields an asset, a release with another tag and more assets
    after these yields the same asset. *)
Theorem X3_match_stable (w : World) (tag tag' : string) (assets more : list Asset)
    (a : Asset) :
  getSystemAsset (mkRelease tag assets) w = (inl (Ok a), w) ->
  getSystemAsset (mkRelease tag' (assets ++ more)) w = (inl (Ok a), w).
Proof.
  intros H. pose proof (getSystemAsset_Ok _ _ _ _ H) as (Hos & Harch & _).
  rewrite getSystemAsset_supported in * by assumption. simpl in *.
  destruct (rangeAssets _ assets) as [b |] eqn:E; [| discriminate].
  by rewrite (rangeAssets_app _ _ more _ E).
Qed.

Lemma X3_match_stable_witness :
  let w := example_world linux_host [] [] in
  getSystemAsset (mkRelease "v1.3.0" (Assets release_v120 ++ Assets release_v110)) w =
  (inl (Ok (mkAsset "solvm-linux-amd64" "U2")), w).
Proof.
  intros w. apply (X3_match_stable w "v1.2.0"). reflexivity.
Defined.

(** *** downloadFile *)

Lemma requests_get (t : list syscall) (url : string) :
  requests (t ++ [SysHttpGet url]) = requests t ++ [url].
Proof. unfold requests. by rewrite omap_app. Qed.

Lemma os_Create_ok (path : string) (w : World) :
  fails (host w) (length (trace w)) (SysCreate path) = None ->
  os_Create path w =
  (inl (Ok tt),
   set_fs (<[path := mkFile "" (match fs w !! path with
                                | Some old => mode old
                                | None => N.ldiff 438 (umask (host w))
                                end)]> (fs w))
     (log (SysCreate path) w)).
Proof. intros Hok. unfold os_Create, sys. go_unfold. by rewrite Hok. Qed.

Lemma os_Create_refused (path : string) (w : World) (e : error) :
  fails (host w) (length (trace w)) (SysCreate path) = Some e ->
  os_Create path w = (inl (Err e), log (SysCreate path) w).
Proof. intros Hno. unfold os_Create, sys. go_unfold. by rewrite Hno. Qed.

(** X4: a download that fails before the file is opened leaves the files
    as they were, so nothing appears at the destination: that is so when the
    request fails, when the status is not 200 (any other status, 2xx or
    not, gives the error bad status), and when the file cannot be created.
    The one request has been made. *)
Theorem X4_download_refused (url dest : string) (w : World) (e : error) :
  let n := length (trace w) in
  http (host w) n url = Err e \/
  (exists resp, http (host w) n url = Ok resp /\ StatusCode resp <> 200 /\
                e = "bad status: " +:+ Status resp) \/
  (exists resp, http (host w) n url = Ok resp /\ StatusCode resp = 200 /\
                fails (host w) (S n) (SysCreate dest) = Some e) ->
  exists w',
    downloadFile url dest w = (inl (Err e), w') /\
    fs w' = fs w /\
    requests (trace w') = requests (trace w) ++ [url].
Proof.
  intros n H. unfold downloadFile, http_Get. unfold mbind, Go_bind, mret, Go_ret.
  unfold bind at 1. fold n.
  destruct H as [H | [(resp & H & Hst & ->) | (resp & H & Hst & Hno)]]; rewrite H.
  - eexists. split; [reflexivity |]. split; [done |]. apply requests_get.
  - apply Z.eqb_neq in Hst. unfold StatusOK. rewrite Hst. cbn [negb].
    eexists. split.
    { unfold ret. cbn [Sprintf Ascii.eqb Bool.eqb orb]. by rewrite append_empty_r. }
    split; [done | apply requests_get].
  - unfold StatusOK. rewrite Hst. cbn [negb Z.eqb Pos.eqb].
    unfold bind. rewrite (os_Create_refused dest _ e) by (rewrite length_log; exact Hno).
    eexists. split; [reflexivity |]. split; [done |].
    simpl. rewrite requests_snoc by done. apply requests_get.
Qed.

Lemma X4_download_refused_witness :
  let w := example_world
             (example_host "linux" "amd64" [release_v120] not_found_response no_faults)
             [] [] in
  exists w',
    downloadFile "U2" "/home/u/.solvm/solvm-linux-amd64" w =
      (inl (Err "bad status: 404 Not Found"), w') /\
    fs w' = fs w /\
    requests (trace w') = requests (trace w) ++ ["U2"].
Proof.
  intros w. apply X4_download_refused. right. left.
  exists (mkResponse 404 "404 Not Found" 9 "Not Found" None).
  split; [reflexivity | split; [discriminate | reflexivity]].
Defined.

(** X5: when the request is answered 200 and the file is created and
    written, the destination holds exactly the bytes that arrived, in place
    of what it held, with the mode it had (for a new file, 0666 less the
    bits of the umask); no other file changes; the declared length plays no
    part.  The result is the error of the stream when it broke: the
    truncated file stays where it is. *)
Theorem X5_download_streamed (url dest : string) (w : World) (resp : Response) :
  let n := length (trace w) in
  http (host w) n url = Ok resp ->
  StatusCode resp = 200 ->
  fails (host w) (S n) (SysCreate dest) = None ->
  fails (host w) (S (S n)) (SysWrite dest (Body resp)) = None ->
  exists w',
    downloadFile url dest w =
      (inl (match BodyErr resp with Some e => Err e | None => Ok tt end), w') /\
    fs w' !! dest =
      Some (mkFile (Body resp)
              (match fs w !! dest with
               | Some old => mode old
               | None => N.ldiff 438 (umask (host w))
               end)) /\
    forall p, p <> dest -> fs w' !! p = fs w !! p.
Proof.
  intros n Hget Hst Hcreate Hwrite.
  assert (exists w', downloadFile url dest w =
            (inl (match BodyErr resp with Some e => Err e | None => Ok tt end), w') /\
          fs w' !! dest =
            Some (mkFile (Body resp)
                    (match fs w !! dest with
                     | Some old => mode old
                     | None => N.ldiff 438 (umask (host w))
                     end)))
    as (w' & Hrun & Hdest).
  { unfold downloadFile, http_Get. unfold mbind, Go_bind, mret, Go_ret.
    unfold bind at 1. fold n. rewrite Hget. unfold StatusOK. rewrite Hst.
    cbn [negb Z.eqb Pos.eqb]. unfold bind at 1.
    rewrite os_Create_ok by (rewrite length_log; exact Hcreate).
    unfold io_Copy. unfold mbind, Go_bind, mret, Go_ret. unfold bind at 1.
    destruct (String.eqb_spec (Body resp) "") as [Hempty | Hbody].
    - unfold ret at 1. eexists. split; [by destruct (BodyErr resp) |].
      destruct (BodyErr resp); simpl; rewrite lookup_insert_eq; by rewrite Hempty.
    - rewrite file_Write_ok
        by (simpl; rewrite !length_app; simpl;
            replace (length (trace w) + 1 + 1)%nat with (S (S n)) by (unfold n; lia);
            exact Hwrite).
      eexists. split; [by destruct (BodyErr resp) |].
      destruct (BodyErr resp); simpl; unfold append_data;
        rewrite lookup_insert_eq; simpl; by rewrite lookup_insert_eq. }
  exists w'. repeat split; [done | done |].
  by apply downloadFile_frame in Hrun as [_ ?].
Qed.

Lemma X5_download_streamed_witness :
  let h := example_host "linux" "amd64" [release_v120] broken_response no_faults in
  let w := example_world h [] [("/home/u/.solvm/solvm-linux-amd64", mkFile "older" 493)] in
  let w0 := example_world h [] [] in
  (exists w',
     downloadFile "U2" "/home/u/.solvm/solvm-linux-amd64" w =
       (inl (Err "unexpected EOF"), w') /\
     fs w' !! "/home/u/.solvm/solvm-linux-amd64" = Some (mkFile "E" 493) /\
     forall p, p <> "/home/u/.solvm/solvm-linux-amd64" -> fs w' !! p = fs w !! p) /\
  (exists w',
     downloadFile "U2" "/home/u/.solvm/solvm-linux-amd64" w0 =
       (inl (Err "unexpected EOF"), w') /\
     fs w' !! "/home/u/.solvm/solvm-linux-amd64" = Some (mkFile "E" 420) /\
     forall p, p <> "/home/u/.solvm/solvm-linux-amd64" -> fs w' !! p = fs w0 !! p).
Proof.
  intros h w w0. split.
  - apply (X5_download_streamed "U2" "/home/u/.solvm/solvm-linux-amd64" w
             (mkResponse 200 "200 OK" 3 "E" (Some "unexpected EOF")));
      vm_compute; reflexivity.
  - apply (X5_download_streamed "U2" "/home/u/.solvm/solvm-linux-amd64" w0
             (mkResponse 200 "200 OK" 3 "E" (Some "unexpected EOF")));
      vm_compute; reflexivity.
Defined.

(** *** addToPath *)

(** X6: on windows the registrar makes one call, powershell with a command
    that names the directory twice (once in the test, once in the new
    value), and returns what that call returns; no file changes. *)
Theorem X6_windows_registration (installDir : string) (w : World) :
  GOOS (host w) = "windows" ->
  let command :=
    "$path = [Environment]::GetEnvironmentVariable('Path', 'User'); if (-not $path.Contains('"
    +:+ installDir +:+
    "')) { [Environment]::SetEnvironmentVariable('Path', $path + ';"
    +:+ installDir +:+ "', 'User') }" in
  let call := SysExec ["powershell"; "-Command"; command] in
  addToPath installDir w =
  (inl (match fails (host w) (length (trace w)) call with
        | Some e => Err e
        | None => Ok tt
        end), log call w).
Proof.
  intros Hwin command call. unfold addToPath. unfold mbind, Go_bind.
  rewrite getHost_bind, Hwin. cbn [String.eqb Ascii.eqb Bool.eqb].
  by rewrite exec_Run_result.
Qed.

Lemma X6_windows_registration_witness :
  let w := example_world
             (example_host "windows" "arm64" [release_v120] binary_response no_faults)
             [] [] in
  let call :=
    SysExec ["powershell"; "-Command";
             "$path = [Environment]::GetEnvironmentVariable('Path', 'User'); if (-not $path.Contains('C:\Users\u\.solvm')) { [Environment]::SetEnvironmentVariable('Path', $path + ';C:\Users\u\.solvm', 'User') }"] in
  addToPath "C:\Users\u\.solvm" w = (inl (Ok tt), log call w).
Proof.
  intros w call. apply (X6_windows_registration "C:\Users\u\.solvm" w). reflexivity.
Defined.

(** X7: on a system that is none of windows, darwin, linux the registrar
    does nothing at all and reports success. *)
Theorem X7_registration_elsewhere (installDir : string) (w : World) :
  GOOS (host w) ∉ supported_os ->
  addToPath installDir w = (inl (Ok tt), w).
Proof.
  intros Hos. apply not_supported_os in Hos as (E1 & E2 & E3).
  unfold addToPath. unfold mbind, Go_bind. rewrite getHost_bind.
  by rewrite E1, E2, E3.
Qed.

Lemma X7_registration_elsewhere_witness :
  let w := example_world
             (example_host "freebsd" "amd64" [release_v120] binary_response no_faults)
             [] [] in
  addToPath "/home/u/.solvm" w = (inl (Ok tt), w).
Proof.
  intros w. apply X7_registration_elsewhere.
  unfold supported_os. rewrite !not_elem_of_cons, elem_of_nil.
  repeat split; try discriminate. tauto.
Defined.

Lemma os_OpenAppend_inv (path : string) (w : World) (r : result unit + Z) (w1 : World) :
  os_OpenAppend path w = (r, w1) ->
  w1 = log (SysOpenAppend path) w /\
  ((exists e, r = inl (Err e)) \/
   (r = inl (Ok tt) /\ is_Some (fs w !! path) /\
    fails (host w) (length (trace w)) (SysOpenAppend path) = None)).
Proof.
  unfold os_OpenAppend, sys. go_unfold.
  destruct (fails _ _ _) as [e |] eqn:Hf; simpl.
  - intros [= <- <-]. eauto.
  - destruct (fs w !! path) as [f |] eqn:E; intros [= <- <-]; eauto 6.
Qed.

Lemma file_Write_inv (path text : string) (w : World) (r : result unit + Z) (w1 : World) :
  file_Write path text w = (r, w1) ->
  host w1 = host w /\
  trace w1 = trace w ++ [SysWrite path text] /\
  ((exists e, r = inl (Err e)) \/
   (r = inl (Ok tt) /\ fs w1 = append_data path text (fs w) /\
    fails (host w) (length (trace w)) (SysWrite path text) = None)).
Proof.
  unfold file_Write, sys. go_unfold.
  destruct (fails _ _ _) as [e |] eqn:Hf; intros [= <- <-]; eauto 8.
Qed.

(** X8: on darwin and linux, when the resource file of the shell does not
    exist the registrar returns an error after the failed open: the file is
    not created, nothing is written and source is not run. *)
Theorem X8_missing_rc_file (installDir : string) (w : World) :
  posix (host w) ->
  fs w !! rcFile (host w) = None ->
  exists e, addToPath installDir w =
            (inl (Err e), log (SysOpenAppend (rcFile (host w))) w).
Proof.
  intros Hposix Hnone. apply posix_branch in Hposix as [Hwin Hunix].
  unfold addToPath. unfold mbind, Go_bind. rewrite getHost_bind.
  rewrite Hwin, Hunix, rcFile_branches. unfold bind.
  destruct (os_OpenAppend _ w) as [r w1] eqn:E.
  apply os_OpenAppend_inv in E as [-> [(e & ->) | (_ & [f Hf] & _)]].
  - by exists e.
  - congruence.
Qed.

Lemma X8_missing_rc_file_witness :
  let w := example_world linux_host [] [("/home/u/.bashrc", mkFile "# rc" 420)] in
  exists e, addToPath "/home/u/.solvm" w =
            (inl (Err e), log (SysOpenAppend "/home/u/.zshrc") w).
Proof.
  intros w. apply (X8_missing_rc_file "/home/u/.solvm" w); [by right | reflexivity].
Defined.

(** The three ways a registration can go on darwin and linux. *)
Lemma addToPath_posix_cases (installDir : string) (w : World)
    (r : result unit + Z) (w' : World) :
  posix (host w) ->
  addToPath installDir w = (r, w') ->
  let rc := rcFile (host w) in
  let line := pathLine installDir in
  (exists e, r = inl (Err e) /\ w' = log (SysOpenAppend rc) w) \/
  (exists e, r = inl (Err e) /\ host w' = host w /\
             (forall p, p <> rc -> fs w' !! p = fs w !! p) /\
             trace w' = trace w ++ [SysOpenAppend rc; SysWrite rc line]) \/
  (exists f x, r = inl x /\ host w' = host w /\
               fs w !! rc = Some f /\
               fs w' = <[rc := mkFile (data f +:+ line) (mode f)]> (fs w) /\
               trace w' = trace w ++
                 [SysOpenAppend rc; SysWrite rc line; SysExec ["source"; rc]]).
Proof.
  intros Hposix H rc line. apply posix_branch in Hposix as [Hwin Hunix].
  unfold addToPath in H. unfold mbind, Go_bind in H. rewrite getHost_bind in H.
  rewrite Hwin, Hunix, rcFile_branches, Sprintf_pathLine in H.
  fold rc line in H. unfold bind in H.
  destruct (os_OpenAppend rc w) as [r1 w1] eqn:E1.
  apply os_OpenAppend_inv in E1 as [-> [(e & ->) | (-> & [f Hf] & _)]].
  { left. exists e. by injection H as <- <-. }
  destruct (file_Write rc line _) as [r2 w2] eqn:E2.
  pose proof (file_Write_frame _ _ _ _ _ E2) as [_ Hoff].
  apply file_Write_inv in E2 as (Hh & Ht & [(e & ->) | (-> & Hfs & _)]).
  { right. left. exists e. injection H as <- <-. repeat split; try done.
    rewrite Ht. simpl. by rewrite <- app_assoc. }
  right. right. rewrite exec_Run_result in H. injection H as <- <-.
  exists f. eexists. repeat split; try done.
  - simpl. rewrite Hfs. unfold append_data. simpl. by rewrite Hf.
  - simpl. rewrite Ht. simpl. by rewrite <- !app_assoc.
Qed.

(** X9: on darwin and linux the registrar runs source only once its line
    is in the file: whenever the call to source is among those the registrar
    has made, the file holds what it held followed by the line. *)
Theorem X9_source_after_append (installDir : string) (w : World)
    (r : result unit + Z) (w' : World) (calls : list syscall) :
  posix (host w) ->
  addToPath installDir w = (r, w') ->
  trace w' = trace w ++ calls ->
  SysExec ["source"; rcFile (host w)] ∈ calls ->
  exists f, fs w !! rcFile (host w) = Some f /\
            fs w' !! rcFile (host w) =
            Some (mkFile (data f +:+ pathLine installDir) (mode f)).
Proof.
  intros Hposix H Ht Hin.
  destruct (addToPath_posix_cases _ _ _ _ Hposix H)
    as [(e & _ & ->) | [(e & _ & _ & _ & Ht') | (f & x & _ & _ & Hf & Hfs & _)]].
  - simpl in Ht. apply app_inv_head in Ht as <-.
    rewrite elem_of_cons, elem_of_nil in Hin. by destruct Hin as [? | ?].
  - rewrite Ht' in Ht. apply app_inv_head in Ht as <-.
    rewrite !elem_of_cons, elem_of_nil in Hin. by destruct Hin as [? | [? | ?]].
  - exists f. split; [done |]. rewrite Hfs. apply lookup_insert_eq.
Qed.

Lemma X9_source_after_append_witness :
  let h := example_host "linux" "amd64" [release_v120] binary_response source_not_found in
  let w := example_world h [] [("/home/u/.zshrc", mkFile "# rc" 420)] in
  let w' := (addToPath "/home/u/.solvm" w).2 in
  exists f, fs w !! "/home/u/.zshrc" = Some f /\
            fs w' !! "/home/u/.zshrc" =
            Some (mkFile (data f +:+ pathLine "/home/u/.solvm") (mode f)).
Proof.
  intros h w w'.
  apply (X9_source_after_append "/home/u/.solvm" w (addToPath "/home/u/.solvm" w).1 w'
           [SysOpenAppend "/home/u/.zshrc";
            SysWrite "/home/u/.zshrc" (pathLine "/home/u/.solvm");
            SysExec ["source"; "/home/u/.zshrc"]]);
    [by right | reflexivity | reflexivity |].
  repeat constructor.
Defined.

Lemma addToPath_frame (installDir : string) (w : World) (r : result unit + Z) (w' : World) :
  addToPath installDir w = (r, w') ->
  (exists x, r = inl x) /\
  host w' = host w /\
  (forall p, p <> rcFile (host w) -> fs w' !! p = fs w !! p) /\
  requests (trace w') = requests (trace w).
Proof.
  intros H.
  destruct (decide (posix (host w))) as [Hposix | Hnot].
  - destruct (addToPath_posix_cases _ _ _ _ Hposix H)
      as [(e & -> & ->) | [(e & -> & Hh & Hoff & Ht) | (f & x & -> & Hh & Hf & Hfs & Ht)]].
    + repeat split; eauto. simpl. by rewrite requests_snoc.
    + repeat split; eauto. rewrite Ht.
      change [SysOpenAppend (rcFile (host w));
              SysWrite (rcFile (host w)) (pathLine installDir)]
        with ([SysOpenAppend (rcFile (host w))] ++
              [SysWrite (rcFile (host w)) (pathLine installDir)]).
      rewrite app_assoc. by rewrite !requests_snoc.
    + repeat split; eauto.
      * intros p Hp. rewrite Hfs. by rewrite lookup_insert_ne.
      * rewrite Ht.
        change [SysOpenAppend (rcFile (host w));
                SysWrite (rcFile (host w)) (pathLine installDir);
                SysExec ["source"; rcFile (host w)]]
          with ([SysOpenAppend (rcFile (host w))] ++
                [SysWrite (rcFile (host w)) (pathLine installDir)] ++
                [SysExec ["source"; rcFile (host w)]]).
        rewrite !app_assoc. by rewrite !requests_snoc.
  - unfold addToPath in H. unfold mbind, Go_bind in H. rewrite getHost_bind in H.
    destruct (String.eqb_spec (GOOS (host w)) "windows") as [Hwin | Hwin].
    + rewrite exec_Run_result in H. injection H as <- <-.
      repeat split; eauto. simpl. by rewrite requests_snoc.
    + assert (String.eqb (GOOS (host w)) "darwin" || String.eqb (GOOS (host w)) "linux"
              = false) as Hunix.
      { apply orb_false_iff. rewrite !String.eqb_neq. unfold posix in Hnot. tauto. }
      rewrite Hunix in H. injection H as <- <-. repeat split; eauto.
Qed.

(** X10: on every system the registrar returns to its caller (it never
    ends the process), makes no network request, and changes no file other
    than the resource file of the shell. *)
Theorem X10_registration_frame (installDir : string) (w : World) :
  let r := (addToPath installDir w).1 in
  let w' := (addToPath installDir w).2 in
  (exists x, r = inl x) /\
  host w' = host w /\
  (forall p, p <> rcFile (host w) -> fs w' !! p = fs w !! p) /\
  requests (trace w') = requests (trace w).
Proof.
  intros r w'. apply (addToPath_frame installDir w r w').
  unfold r, w'. by destruct (addToPath installDir w).
Qed.

(** *** askForConfirmation and checkExistingInstallation *)





Lemma cut_line_append_None (s t : string) :
  cut_line s = None -> cut_line t = None -> cut_line (s +:+ t) = None.
Proof.
  intros Hs Ht. induction s as [| c s IH]; [exact Ht |].
  change (cut_line (String c (s +:+ t)) = None). simpl in *.
  destruct (Ascii.eqb c "010"); [discriminate |].
  destruct (cut_line s) as [[l r] |]; [discriminate |]. by rewrite IH.
Qed.

Lemma cut_line_no_newline (s : string) : Contains s nl = false -> cut_line s = None.
Proof.
  induction s as [| c s IH]; [done |]. simpl.
  destruct (Ascii.eqb c "010").
  - intros H. destruct s; simpl in H; discriminate.
  - simpl. intros H. by rewrite IH.
Qed.

Lemma read_string_no_newline (chunks : list string) :
  forall buf,
    cut_line buf = None ->
    Forall (fun c => cut_line c = None) chunks ->
    exists line e rest, read_string buf chunks = ((line, Some e), rest).
Proof.
  induction chunks as [| c chunks IH]; intros buf Hbuf Hall; simpl; rewrite Hbuf.
  - eauto.
  - apply Forall_cons in Hall as [Hc Hall].
    destruct (String.eqb c ""); [eauto |].
    apply IH; [by apply cut_line_append_None | done].
Qed.

(** X12: an answer is only read up to a line feed: when the input holds no
    line feed at all, the confirmation returns false whatever was typed,
    y included. *)
Theorem X12_answer_needs_line_feed (message : string) (w : World) :
  Forall (fun c => Contains c nl = false) (stdin w) ->
  (askForConfirmation message w).1 = inl false.
Proof.
  intros Hall. unfold askForConfirmation. rewrite askFrom_turn.
  destruct (read_string_no_newline (stdin w) "") as (line & e & [buf' chunks'] & ->);
    [done | | done].
  eapply Forall_impl; [exact Hall |]. intros c. apply cut_line_no_newline.
Qed.

Lemma X12_answer_needs_line_feed_witness :
  (askForConfirmation "Do you want to install SolVM?"
     (example_world linux_host ["y"; "es"] [])).1 = inl false.
Proof.
  apply X12_answer_needs_line_feed. repeat constructor.
Defined.

Lemma read_string_cut (buf line rest : string) (chunks : list string) :
  cut_line buf = Some (line, rest) ->
  read_string buf chunks = ((line, None), (rest, chunks)).
Proof. intros H. destruct chunks; simpl; by rewrite H. Qed.

(** X13: the reader of a confirmation dies with it: when a read brings an
    answer and more, the answer decides and the rest of that read is gone,
    so the next question starts from the reads that follow. *)
Theorem X13_buffered_input_lost (message : string) (w : World)
    (chunk line rest : string) (chunks : list string) :
  stdin w = chunk :: chunks ->
  cut_line chunk = Some (line, rest) ->
  affirmative line = true \/ declining line = true ->
  askForConfirmation message w =
  (inl (affirmative line), set_stdin chunks (log (prompt message) w)).
Proof.
  intros Hin Hcut Hanswer. unfold askForConfirmation. rewrite askFrom_turn, Hin.
  assert (read_string "" (chunk :: chunks) = ((line, None), (rest, chunks))) as ->.
  { simpl. destruct (String.eqb_spec chunk "") as [-> | _]; [discriminate |].
    change ("" +:+ chunk) with chunk. by apply read_string_cut. }
  destruct Hanswer as [Ha | Hd].
  - by rewrite Ha.
  - destruct (affirmative line) eqn:Ha; [| by rewrite Hd].
    apply affirmative_not_declining in Ha. congruence.
Qed.

Lemma X13_buffered_input_lost_witness :
  let w := example_world linux_host ["y" +:+ nl +:+ "y" +:+ nl; "n" +:+ nl] [] in
  askForConfirmation "Do you want to install SolVM?" w =
  (inl true, set_stdin ["n" +:+ nl] (log (prompt "Do you want to install SolVM?") w)).
Proof.
  intros w.
  apply (X13_buffered_input_lost "Do you want to install SolVM?" w
           ("y" +:+ nl +:+ "y" +:+ nl) ("y" +:+ nl) ("y" +:+ nl) ["n" +:+ nl]);
    [reflexivity | reflexivity | by left].
Defined.

(** X14: the check for an installation makes one call, a stat of the very
    path main later installs to (solvm.exe on windows, solvm elsewhere), and
    answers true exactly when a file is there and the stat is not refused. *)
Theorem X14_existing_installation (installDir : string) (w : World) :
  let path := finalPath (host w) installDir in
  exists found,
    checkExistingInstallation installDir w = (inl found, log (SysStat path) w) /\
    (found = true <->
     is_Some (fs w !! path) /\
     fails (host w) (length (trace w)) (SysStat path) = None).
Proof.
  intros path. unfold checkExistingInstallation, os_Stat, sys. go_unfold.
  unfold path, finalPath.
  destruct (String.eqb (GOOS (host w)) "windows"); simpl;
    destruct (fails _ _ _) as [e |]; simpl;
    try (eexists; split; [reflexivity |]; split; [done | by intros [_ ?]]);
    destruct (fs w !! _) as [f |]; eexists; (split; [reflexivity |]);
    split; try done; try by eauto.
  all: by intros [[? ?] _].
Qed.

(** *** main *)

Section Exits.
Context (P : Z -> Prop).

Lemma exits_ret {A} (a : A) : exits_within P (ret a).
Proof. intros w code w'. discriminate. Qed.

Lemma exits_exit {A} (code : Z) : P code -> exits_within P (@os_Exit A code).
Proof. intros HP w c w' [= <- <-]. exact HP. Qed.

Lemma exits_bind {A B} (m : Go A) (k : A -> Go B) :
  exits_within P m -> (forall a, exits_within P (k a)) -> exits_within P (bind m k).
Proof.
  intros Hm Hk w code w'. unfold bind.
  destruct (m w) as [[a | c] w1] eqn:E.
  - apply Hk.
  - intros [= <- <-]. by apply Hm in E.
Qed.

(** A step that always returns to its caller exits within anything. *)
Lemma exits_returns {A} (m : Go A) :
  (forall w, exists a, (m w).1 = inl a) -> exits_within P m.
Proof.
  intros Hm w code w' E. destruct (Hm w) as [a Ha]. rewrite E in Ha. discriminate.
Qed.

Lemma exits_getHost : exits_within P getHost.
Proof. intros w code w'. discriminate. Qed.

Lemma exits_color (c : colour) (format : string) (args : list string) :
  exits_within P (color c format args).
Proof. apply exits_returns. intros w. destruct args; by eexists. Qed.

Lemma exits_askForConfirmation (message : string) :
  exits_within P (askForConfirmation message).
Proof.
  apply exits_returns. intros w.
  destruct (askFrom_returns message "" w) as (answer & w' & E).
  exists answer. unfold askForConfirmation. by rewrite E.
Qed.

Lemma exits_getLatestRelease : exits_within P getLatestRelease.
Proof.
  apply exits_returns. intros w. unfold getLatestRelease, http_Get. go_unfold.
  destruct (http _ _ _) as [resp | e]; [| by eexists]. cbn.
  destruct (decode _ _) as [[| first rest] | e]; by eexists.
Qed.

Lemma exits_getSystemAsset (release : Release) : exits_within P (getSystemAsset release).
Proof.
  apply exits_returns. intros w. unfold getSystemAsset. go_unfold. cbn.
  repeat match goal with
         | |- context [if ?b then _ else _] => destruct b
         | |- context [match ?x with _ => _ end] => destruct x
         end; by eexists.
Qed.

Lemma exits_checkExistingInstallation (installDir : string) :
  exits_within P (checkExistingInstallation installDir).
Proof.
  apply exits_returns. intros w.
  unfold checkExistingInstallation, os_Stat, sys. go_unfold.
  destruct (String.eqb _ _); simpl; destruct (fails _ _ _); simpl;
    try (by eexists); destruct (fs w !! _); by eexists.
Qed.

Lemma exits_os_MkdirAll (path : string) (perm : N) :
  exits_within P (os_MkdirAll path perm).
Proof.
  apply exits_returns. intros w. unfold os_MkdirAll, sys. go_unfold.
  destruct (fails _ _ _); by eexists.
Qed.

Lemma exits_downloadFile (url dest : string) : exits_within P (downloadFile url dest).
Proof.
  intros w code w' E. exfalso. revert E.
  unfold downloadFile, http_Get, os_Create, io_Copy, file_Write, sys. go_unfold.
  destruct (http _ _ _) as [resp | e]; [| discriminate].
  destruct (negb _); [discriminate |]. simpl.
  destruct (fails _ _ (SysCreate dest)); [discriminate |]. simpl.
  destruct (String.eqb (Body resp) ""); simpl.
  - destruct (BodyErr resp); discriminate.
  - destruct (fails _ _ _); [discriminate |]. simpl.
    destruct (BodyErr resp); discriminate.
Qed.

Lemma exits_os_Rename (oldpath newpath : string) :
  exits_within P (os_Rename oldpath newpath).
Proof.
  apply exits_returns. intros w. unfold os_Rename, sys. go_unfold.
  destruct (fails _ _ _); simpl; [by eexists |].
  destruct (fs w !! oldpath); by eexists.
Qed.

Lemma exits_os_Chmod (path : string) (perm : N) : exits_within P (os_Chmod path perm).
Proof.
  apply exits_returns. intros w. unfold os_Chmod, sys. go_unfold.
  destruct (fails _ _ _); simpl; [by eexists |].
  destruct (fs w !! path); by eexists.
Qed.

Lemma exits_addToPath (installDir : string) : exits_within P (addToPath installDir).
Proof.
  intros w code w' E. apply addToPath_frame in E as ([x Hx] & _). discriminate.
Qed.
End Exits.

Create HintDb exits.
#[local] Hint Resolve exits_ret exits_getHost exits_color exits_askForConfirmation
  exits_getLatestRelease exits_getSystemAsset exits_checkExistingInstallation
  exits_os_MkdirAll exits_downloadFile exits_os_Rename exits_os_Chmod
  exits_addToPath : exits.

Ltac exits_steps :=
  unfold mbind, Go_bind, mret, Go_ret; cbv zeta;
  repeat first
    [ solve [auto with exits]
    | apply exits_exit; solve [auto]
    | apply exits_bind; [| intros ?]
    | match goal with
      | |- exits_within _ (match ?x with _ => _ end) => destruct x
      end ].

Lemma main_exits : exits_within (fun code => code = 0 \/ code = 1) main.
Proof. unfold main. exits_steps. Qed.

(** X15: whatever happens, the exit code of a run is 0 or 1. *)
Theorem X15_exit_code_0_or_1 (w : World) :
  exit_code (main w).1 = 0 \/ exit_code (main w).1 = 1.
Proof.
  destruct (main w) as [[[] | code] w'] eqn:E; simpl; [by left |].
  by apply main_exits in E.
Qed.

(** X16: when the home directory cannot be found, the run prints its two
    banner lines and the error and ends with os.Exit(1): no stat, no network
    request, no question, and the files are untouched. *)
Theorem X16_no_home_directory (w : World) (e : error) :
  UserHomeDir (host w) = Err e ->
  main w =
  (inr 1,
   log (SysPrint Red ("Error getting home directory: " +:+ e))
     (log (SysPrint Cyan "===============") (log (SysPrint Cyan "SolVM Installer") w))).
Proof.
  intros H. unfold main. unfold mbind, Go_bind. rewrite getHost_bind.
  unfold bind at 1. unfold color at 1, Print at 1.
  unfold bind at 1. unfold color at 1, Print at 1.
  unfold bind at 1. simpl host. rewrite H.
  unfold bind, color, Print, os_Exit. cbn [Sprintf Ascii.eqb Bool.eqb orb].
  by rewrite append_empty_r.
Qed.

Lemma X16_no_home_directory_witness :
  let w := example_world homeless_host ["y" +:+ nl] [] in
  main w =
  (inr 1,
   log (SysPrint Red "Error getting home directory: $HOME is not defined")
     (log (SysPrint Cyan "===============") (log (SysPrint Cyan "SolVM Installer") w))).
Proof.
  intros w. apply (X16_no_home_directory w "$HOME is not defined"). reflexivity.
Defined.

(** **** Network requests and files over a whole run *)

Lemma silent_putFs (f : gmap string File) : silent (putFs f).
Proof. by intros w r w' [= <- <-]. Qed.

Lemma silent_getSystemAsset (release : Release) : silent (getSystemAsset release).
Proof.
  intros w r w' H. pose proof (getSystemAsset_pure release w) as E.
  rewrite H in E. simpl in E. by subst.
Qed.

Lemma silent_addToPath (installDir : string) : silent (addToPath installDir).
Proof. intros w r w' H. apply addToPath_frame in H as (_ & ? & _ & ?). by split. Qed.

#[local] Hint Resolve silent_putFs silent_getSystemAsset silent_addToPath : respects.

Ltac quiet_steps :=
  unfold mbind, Go_bind, mret, Go_ret; cbv beta zeta;
  repeat first
    [ solve [auto with respects typeclass_instances]
    | apply silent_sys; done
    | apply respects_bind; [apply _ | | intros ?]
    | match goal with
      | |- respects _ (match ?x with _ => _ end) => destruct x
      end ].

Lemma silent_os_MkdirAll (path : string) (perm : N) : silent (os_MkdirAll path perm).
Proof. unfold os_MkdirAll. quiet_steps. Qed.

Lemma silent_os_Create (path : string) : silent (os_Create path).
Proof. unfold os_Create. quiet_steps. Qed.

Lemma silent_file_Write (path text : string) : silent (file_Write path text).
Proof.
  unfold file_Write. quiet_steps.
  intros w r w' E. injection E as <- <-. by split.
Qed.

#[local] Hint Resolve silent_os_MkdirAll silent_os_Create silent_file_Write : respects.

Lemma silent_io_Copy (dest : string) (resp : Response) : silent (io_Copy dest resp).
Proof. unfold io_Copy. quiet_steps. Qed.

Lemma silent_os_Rename (oldpath newpath : string) : silent (os_Rename oldpath newpath).
Proof.
  unfold os_Rename. quiet_steps.
Qed.

Lemma silent_os_Chmod (path : string) (perm : N) : silent (os_Chmod path perm).
Proof.
  unfold os_Chmod. quiet_steps.
Qed.

#[local] Hint Resolve silent_io_Copy silent_os_Rename silent_os_Chmod : respects.

Lemma silent_main_replace (installDir : string) : silent (main_replace installDir).
Proof. unfold main_replace. quiet_steps. Qed.

Lemma silent_main_place (h : Host) (installDir : string) (asset : Asset) :
  silent (main_place h installDir asset).
Proof. unfold main_place. quiet_steps. Qed.

Lemma silent_main_register (installDir : string) : silent (main_register installDir).
Proof. unfold main_register. quiet_steps. Qed.

Lemma getLatestRelease_world (w : World) :
  (getLatestRelease w).2 = log (SysHttpGet releasesURL) w.
Proof.
  unfold getLatestRelease, http_Get. go_unfold.
  destruct (http _ _ _) as [resp | e]; [| done]. cbn.
  by destruct (decode _ _) as [[| first rest] | e].
Qed.

(** Every run of [main_select] makes the one request for the releases. *)
Lemma main_select_requests (h : Host) (installDir : string) (w : World)
    (r : Asset + Z) (w' : World) :
  main_select h installDir w = (r, w') ->
  requests (trace w') = requests (trace w) ++ [releasesURL].
Proof.
  unfold main_select. unfold mbind, Go_bind, mret, Go_ret. intros H.
  apply bind_inv in H as [(rel & w0 & E & H) | (code & E & _)].
  - pose proof (getLatestRelease_world w) as Hw. rewrite E in Hw. simpl in Hw. subst w0.
    match type of H with
    | ?m _ = _ => assert (silent m) as Hs by quiet_steps
    end.
    apply Hs in H as [_ ->]. apply requests_get.
  - by apply (exits_getLatestRelease (fun _ => False)) in E.
Qed.

Lemma downloadFile_requests (url dest : string) (w : World)
    (r : result unit + Z) (w' : World) :
  downloadFile url dest w = (r, w') ->
  requests (trace w') = requests (trace w) ++ [url].
Proof.
  unfold downloadFile. unfold mbind, Go_bind, mret, Go_ret.
  unfold bind at 1. unfold http_Get at 1. intros H.
  match type of H with
  | ?m _ = _ => assert (silent m) as Hs by quiet_steps
  end.
  apply Hs in H as [_ ->]. apply requests_get.
Qed.

Lemma main_selected_requests (w : World) (r : string * Asset + Z) (w' : World) :
  main_selected w = (r, w') ->
  fs w' = fs w /\
  (requests (trace w') = requests (trace w) ++ [releasesURL] \/
   (exists code, r = inr code) /\ requests (trace w') = requests (trace w)).
Proof.
  intros H. split; [by apply keeps_main_selected in H as [_ ?] |].
  unfold main_selected in H. unfold mbind, Go_bind, mret, Go_ret in H.
  rewrite getHost_bind in H.
  apply bind_inv in H as [(dir & w1 & E1 & H) | (code & E1 & ->)];
    apply silent_main_setup in E1 as [_ R1]; [| right; eauto].
  apply bind_inv in H as [(? & w2 & E2 & H) | (code & E2 & ->)];
    apply silent_main_replace in E2 as [_ R2]; [| right; split; [eauto | congruence]].
  apply bind_inv in H as [(asset & w3 & E3 & H) | (code & E3 & ->)];
    apply main_select_requests in E3; left.
  - unfold ret in H. simplify_eq. congruence.
  - congruence.
Qed.

(** **** The calls of a run stay in the order they were made *)

#[local] Instance grows_preorder : PreOrder grows.
Proof.
  split.
  - intros w. unfold grows. reflexivity.
  - intros w1 w2 w3 H12 H23. unfold grows in *. by etrans.
Qed.

Lemma grows_log (c : syscall) (w : World) : grows w (log c w).
Proof. by exists [c]. Qed.

Lemma grows_Print (c : colour) (text : string) : respects grows (Print c text).
Proof. intros w r w' [= <- <-]. apply grows_log. Qed.

Lemma grows_color (c : colour) (format : string) (args : list string) :
  respects grows (color c format args).
Proof. destruct args; apply grows_Print. Qed.

Lemma grows_sys (c : syscall) : respects grows (sys c).
Proof. intros w r w' [= <- <-]. apply grows_log. Qed.

Lemma grows_http_Get (url : string) : respects grows (http_Get url).
Proof. intros w r w' [= <- <-]. apply grows_log. Qed.

Lemma grows_putFs (f : gmap string File) : respects grows (putFs f).
Proof. intros w r w' [= <- <-]. unfold grows. reflexivity. Qed.

Lemma grows_askForConfirmation (message : string) :
  respects grows (askForConfirmation message).
Proof.
  intros w r w' H. apply askForConfirmation_frame in H as (_ & _ & n & Ht).
  by exists (replicate n (prompt message)).
Qed.

Lemma grows_getSystemAsset (release : Release) : respects grows (getSystemAsset release).
Proof.
  intros w r w' H. pose proof (getSystemAsset_pure release w) as E.
  rewrite H in E. simpl in E. subst. reflexivity.
Qed.

#[local] Hint Resolve grows_Print grows_color grows_sys grows_http_Get grows_putFs
  grows_askForConfirmation grows_getSystemAsset : respects.

Lemma grows_os_MkdirAll (path : string) (perm : N) : respects grows (os_MkdirAll path perm).
Proof. unfold os_MkdirAll. quiet_steps. Qed.

Lemma grows_os_Create (path : string) : respects grows (os_Create path).
Proof. unfold os_Create. quiet_steps. Qed.

Lemma grows_os_OpenAppend (path : string) : respects grows (os_OpenAppend path).
Proof. unfold os_OpenAppend. quiet_steps. Qed.

Lemma grows_file_Write (path text : string) : respects grows (file_Write path text).
Proof.
  unfold file_Write. quiet_steps.
  intros w r w' E. injection E as <- <-. reflexivity.
Qed.

Lemma grows_os_Rename (oldpath newpath : string) :
  respects grows (os_Rename oldpath newpath).
Proof. unfold os_Rename. quiet_steps. Qed.

Lemma grows_os_Chmod (path : string) (perm : N) : respects grows (os_Chmod path perm).
Proof. unfold os_Chmod. quiet_steps. Qed.

Lemma grows_exec_Run (argv : list string) : respects grows (exec_Run argv).
Proof. unfold exec_Run. quiet_steps. Qed.

#[local] Hint Resolve grows_os_MkdirAll grows_os_Create grows_os_OpenAppend
  grows_file_Write grows_os_Rename grows_os_Chmod grows_exec_Run : respects.

Lemma grows_io_Copy (dest : string) (resp : Response) : respects grows (io_Copy dest resp).
Proof. unfold io_Copy. quiet_steps. Qed.

Lemma grows_addToPath (installDir : string) : respects grows (addToPath installDir).
Proof. unfold addToPath. quiet_steps. Qed.

#[local] Hint Resolve grows_io_Copy grows_addToPath : respects.

Lemma grows_downloadFile (url dest : string) : respects grows (downloadFile url dest).
Proof. unfold downloadFile. quiet_steps. Qed.

#[local] Hint Resolve grows_downloadFile : respects.

Lemma grows_main_download (h : Host) (installDir : string) (asset : Asset) :
  respects grows (main_download h installDir asset).
Proof. unfold main_download. quiet_steps. Qed.

Lemma grows_main_place (h : Host) (installDir : string) (asset : Asset) :
  respects grows (main_place h installDir asset).
Proof. unfold main_place. quiet_steps. Qed.

Lemma grows_main_register (installDir : string) :
  respects grows (main_register installDir).
Proof. unfold main_register. quiet_steps. Qed.

Lemma getLatestRelease_Ok (w : World) (release : Release) (w' : World) :
  getLatestRelease w = (inl (Ok release), w') ->
  exists resp rest,
    http (host w) (length (trace w)) releasesURL = Ok resp /\
    decode (host w) resp = Ok (release :: rest).
Proof.
  unfold getLatestRelease, http_Get. go_unfold.
  destruct (http _ _ _) as [resp | e]; [| discriminate]. cbn.
  destruct (decode _ _) as [[| first rest] | e] eqn:E; try discriminate.
  intros [= -> _]. eauto.
Qed.

Lemma getSystemAsset_host (release : Release) (w w' : World) :
  host w' = host w -> (getSystemAsset release w').1 = (getSystemAsset release w).1.
Proof.
  intros Hh. unfold getSystemAsset. go_unfold. cbn. rewrite Hh.
  repeat match goal with
         | |- context [if ?b then _ else _] => destruct b
         | |- context [match ?x with _ => _ end] => destruct x
         end; reflexivity.
Qed.

(** The asset that [main_select] hands over is the one the matcher picks in
    the first release of the list the host serves, in answer to the request
    that [main_select] starts with. *)
Lemma main_select_found (installDir : string) (w : World) (asset : Asset) (w' : World) :
  main_select (host w) installDir w = (inl asset, w') ->
  exists after resp release rest,
    trace w' = trace w ++ SysHttpGet releasesURL :: after /\
    http (host w) (length (trace w)) releasesURL = Ok resp /\
    decode (host w) resp = Ok (release :: rest) /\
    (getSystemAsset release w).1 = inl (Ok asset).
Proof.
  unfold main_select. unfold mbind, Go_bind, mret, Go_ret. intros H.
  apply bind_inl in H as (r & w1 & E1 & H).
  pose proof (keeps_getLatestRelease _ _ _ E1) as [Hh1 _].
  pose proof (getLatestRelease_world w) as Hw1. rewrite E1 in Hw1. simpl in Hw1.
  assert (exists after, trace w' = trace w ++ SysHttpGet releasesURL :: after)
    as [after Hafter].
  { match type of H with
    | ?m _ = _ => assert (respects grows m) as Hg by quiet_steps
    end.
    apply Hg in H as [after Ht]. exists after. rewrite Ht, Hw1. simpl.
    by rewrite <- app_assoc. }
  apply bind_inl in H as (release & w2 & E2 & H).
  destruct r as [rel | e]; [| apply bind_inl in E2 as (? & ? & ? & E2); discriminate].
  unfold ret in E2. simplify_eq.
  apply getLatestRelease_Ok in E1 as (resp & rest & Hget & Hdec).
  apply bind_inl in H as (? & w3 & E3 & H).
  apply keeps_color in E3 as [Hh3 _].
  apply bind_inl in H as (found & w4 & E4 & H).
  apply bind_inl in H as (a & w5 & E5 & H).
  destruct found as [a' | e]; [| apply bind_inl in E5 as (? & ? & ? & E5); discriminate].
  unfold ret in E5. simplify_eq.
  assert ((getSystemAsset release w).1 = inl (Ok a)) as Hfound.
  { rewrite <- (getSystemAsset_host release w w3) by congruence. by rewrite E4. }
  apply bind_inl in H as (? & w6 & ? & H).
  apply bind_inl in H as (install & w7 & ? & H).
  apply bind_inl in H as (? & w8 & ? & H).
  apply bind_inl in H as (made & w9 & ? & H).
  apply bind_inl in H as (? & w10 & ? & H).
  apply bind_inl in H as (? & w11 & ? & H).
  unfold ret in H. simplify_eq. eauto 8.
Qed.

Lemma main_selected_found (w : World) (installDir : string) (asset : Asset) (w1 : World) :
  main_selected w = (inl (installDir, asset), w1) ->
  exists before after resp release rest,
    trace w1 = before ++ SysHttpGet releasesURL :: after /\
    requests before = requests (trace w) /\
    http (host w) (length before) releasesURL = Ok resp /\
    decode (host w) resp = Ok (release :: rest) /\
    (getSystemAsset release w).1 = inl (Ok asset).
Proof.
  unfold main_selected. unfold mbind, Go_bind, mret, Go_ret.
  rewrite getHost_bind. intros H.
  apply bind_inl in H as (dir & wa & Ea & H).
  pose proof (silent_main_setup _ _ _ _ Ea) as [_ Ra].
  apply keeps_main_setup in Ea as [Ha _].
  apply bind_inl in H as (? & wb & Eb & H).
  pose proof (silent_main_replace _ _ _ _ Eb) as [_ Rb].
  apply keeps_main_replace in Eb as [Hb _].
  apply bind_inl in H as (a & wc & Ec & H).
  unfold ret in H. simplify_eq.
  assert (host wb = host w) as Hh by congruence.
  rewrite <- Hh in Ec.
  apply main_select_found in Ec as (after & resp & release & rest & ? & ? & ? & ?).
  exists (trace wb), after, resp, release, rest. rewrite <- Hh.
  repeat split; try done; [congruence |].
  rewrite (getSystemAsset_host release wb w) by done. done.
Qed.

(** X17: over a whole run, main asks the network at most twice.  The first
    request is for the list of releases.  The second, when there is one, is
    for the download URL of the asset that the matcher picks in the first
    release of the list that the host served in answer to the first request.
    As long as the second request has not been made, no file has changed. *)
Theorem X17_requests_and_files (w : World) :
  let w' := (main w).2 in
  exists urls,
    requests (trace w') = requests (trace w) ++ urls /\
    ((urls = [] \/ urls = [releasesURL]) /\ fs w' = fs w \/
     exists before after resp release rest asset,
       trace w' = before ++ SysHttpGet releasesURL :: after /\
       requests before = requests (trace w) /\
       http (host w) (length before) releasesURL = Ok resp /\
       decode (host w) resp = Ok (release :: rest) /\
       (getSystemAsset release w).1 = inl (Ok asset) /\
       urls = [releasesURL; BrowserDownloadURL asset]).
Proof.
  intros w'. destruct (main w) as [r w1] eqn:H. unfold w'. simpl. clear w'.
  rewrite main_steps_eq, main_steps_selected in H.
  apply bind_inv in H as [([dir asset] & w0 & E & H) | (code & E & _)].
  - pose proof (main_selected_found _ _ _ _ E)
      as (before & after & resp & release & rest & Ht & Hbefore & Hget & Hdec & Hfound).
    apply main_selected_requests in E as [_ [R | [[code ?] _]]]; [| discriminate].
    cbn [fst snd] in H.
    assert (exists t, trace w1 = trace w0 ++ t) as [t Hgrown].
    { match type of H with
      | ?m _ = _ => assert (respects grows m) as Hg
      end.
      { pose proof grows_main_download. pose proof grows_main_place.
        pose proof grows_main_register. quiet_steps. }
      by apply Hg in H. }
    unfold main_download in H.
    unfold mbind, Go_bind, mret, Go_ret in H. rewrite bind_assoc in H.
    apply bind_inv in H as [(d & w2 & E2 & H) | (code & E2 & _)].
    + apply downloadFile_requests in E2.
      match type of H with
      | ?m _ = _ => assert (silent m) as Hs
      end.
      { pose proof silent_main_place. pose proof silent_main_register. quiet_steps. }
      apply Hs in H as [_ R3].
      exists [releasesURL; BrowserDownloadURL asset]. split.
      * rewrite R3, E2, R. by rewrite <- app_assoc.
      * right. exists before, (after ++ t), resp, release, rest, asset.
        repeat split; try done.
        rewrite Hgrown, Ht. by rewrite <- app_assoc.
    + by apply (exits_downloadFile (fun _ => False)) in E2.
  - apply main_selected_requests in E as [Hfs [R | [_ R]]].
    + exists [releasesURL]. auto.
    + exists []. rewrite app_nil_r. auto.
Qed.

(** **** From the download to the installed binary *)

Lemma os_Rename_inv (oldpath newpath : string) (w : World) (r : result unit + Z)
    (w' : World) :
  os_Rename oldpath newpath w = (r, w') ->
  host w' = host w /\
  ((exists e, r = inl (Err e) /\ fs w' = fs w) \/
   (exists x, r = inl (Ok tt) /\ fs w !! oldpath = Some x /\
              fs w' = <[newpath := x]> (delete oldpath (fs w)))).
Proof.
  unfold os_Rename, sys. go_unfold.
  destruct (fails _ _ _) as [e |]; simpl.
  - intros [= <- <-]. eauto.
  - destruct (fs w !! oldpath) as [x |] eqn:E; intros [= <- <-]; eauto 6.
Qed.

Lemma os_Rename_ok (oldpath newpath : string) (w : World) (x : File) :
  fs w !! oldpath = Some x ->
  fails (host w) (length (trace w)) (SysRename oldpath newpath) = None ->
  os_Rename oldpath newpath w =
  (inl (Ok tt),
   set_fs (<[newpath := x]> (delete oldpath (fs w))) (log (SysRename oldpath newpath) w)).
Proof.
  intros Hx Hok. unfold os_Rename, sys. go_unfold. rewrite Hok. simpl. by rewrite Hx.
Qed.

Lemma os_Chmod_inv (path : string) (perm : N) (w : World) (r : result unit + Z)
    (w' : World) :
  os_Chmod path perm w = (r, w') ->
  host w' = host w /\
  ((exists e, r = inl (Err e) /\ fs w' = fs w) \/
   (exists x, r = inl (Ok tt) /\ fs w !! path = Some x /\
              fs w' = <[path := mkFile (data x) perm]> (fs w))).
Proof.
  unfold os_Chmod, sys. go_unfold.
  destruct (fails _ _ _) as [e |]; simpl.
  - intros [= <- <-]. eauto.
  - destruct (fs w !! path) as [x |] eqn:E; intros [= <- <-]; eauto 6.
Qed.

Lemma os_Chmod_ok (path : string) (perm : N) (w : World) (x : File) :
  fs w !! path = Some x ->
  fails (host w) (length (trace w)) (SysChmod path perm) = None ->
  os_Chmod path perm w =
  (inl (Ok tt), set_fs (<[path := mkFile (data x) perm]> (fs w)) (log (SysChmod path perm) w)).
Proof.
  intros Hx Hok. unfold os_Chmod, sys. go_unfold. rewrite Hok. simpl. by rewrite Hx.
Qed.

Lemma append_data_is_Some (path text : string) (f : gmap string File) :
  is_Some (f !! path) -> is_Some (append_data path text f !! path).
Proof.
  intros [x Hx]. unfold append_data. rewrite Hx. rewrite lookup_insert_eq. eauto.
Qed.

(** A download that succeeds has left a file at its destination. *)
Lemma downloadFile_Ok_file (url dest : string) (w w' : World) :
  downloadFile url dest w = (inl (Ok tt), w') -> is_Some (fs w' !! dest).
Proof.
  unfold downloadFile, http_Get, os_Create, io_Copy, file_Write, sys. go_unfold.
  destruct (http _ _ _) as [resp | e]; [| discriminate].
  destruct (negb _); [discriminate |]. simpl.
  destruct (fails _ _ (SysCreate dest)); [discriminate |]. simpl.
  destruct (String.eqb (Body resp) ""); simpl.
  - destruct (BodyErr resp); [discriminate |]. intros [= <-]. simpl.
    rewrite lookup_insert_eq. eauto.
  - destruct (fails _ _ _); [discriminate |]. simpl.
    destruct (BodyErr resp); [discriminate |]. intros [= <-]. simpl.
    apply append_data_is_Some. rewrite lookup_insert_eq. eauto.
Qed.

(** What is known when the download has succeeded. *)
Lemma after_download (w w1 w2 : World) (installDir : string) (asset : Asset) :
  main_selected w = (inl (installDir, asset), w1) ->
  downloadFile (BrowserDownloadURL asset) (tempPath (host w) installDir asset) w1 =
    (inl (Ok tt), w2) ->
  host w2 = host w /\
  tempPath (host w) installDir asset <> finalPath (host w) installDir /\
  is_Some (fs w2 !! tempPath (host w) installDir asset) /\
  (forall p, p <> tempPath (host w) installDir asset -> fs w2 !! p = fs w !! p) /\
  main_steps w =
  bind (main_place (host w) installDir asset) (fun _ => main_register installDir) w2.
Proof.
  intros Hsel Hdl.
  pose proof (main_selected_asset _ _ _ _ Hsel) as (Hos & Harch & Hname).
  pose proof (temp_is_not_final (host w) installDir asset Hos Harch Hname) as Hne.
  pose proof (keeps_main_selected _ _ _ Hsel) as [Hh1 Hf1].
  pose proof (downloadFile_frame _ _ _ _ _ Hdl) as [Hh2 Hf2].
  repeat split.
  - congruence.
  - done.
  - by apply downloadFile_Ok_file in Hdl.
  - intros p Hp. rewrite Hf2 by done. by rewrite Hf1.
  - rewrite main_steps_selected. unfold bind at 1. rewrite Hsel. cbn [fst snd].
    unfold main_download, mbind, Go_bind, mret, Go_ret.
    rewrite bind_assoc. unfold bind at 1. by rewrite Hdl.
Qed.

Lemma main_installed_steps (w : World) :
  main_installed w =
  bind main_selected
    (fun selected =>
       bind (main_download (host w) selected.1 selected.2)
         (fun _ => bind (main_place (host w) selected.1 selected.2)
                     (fun _ => ret selected.1))) w.
Proof.
  unfold main_installed. unfold mbind, Go_bind, mret, Go_ret.
  by rewrite getHost_bind.
Qed.

(** X18: when the download has succeeded and neither the rename nor the
    chmod is refused, the run reaches the question about the PATH with the
    downloaded file at the final path, with mode 0755 (on windows, where
    chmod is skipped, with the mode it had), nothing left at the temporary
    path, and every other file as it was before the run. *)
Theorem X18_installed_in_place (w w1 w2 : World) (installDir : string) (asset : Asset) :
  let h := host w in
  let temp := tempPath h installDir asset in
  let final := finalPath h installDir in
  main_selected w = (inl (installDir, asset), w1) ->
  downloadFile (BrowserDownloadURL asset) temp w1 = (inl (Ok tt), w2) ->
  fails h (length (trace w2)) (SysRename temp final) = None ->
  (GOOS h <> "windows" ->
   fails h (S (length (trace w2))) (SysChmod final 493) = None) ->
  exists w3 f,
    main_installed w = (inl installDir, w3) /\
    fs w2 !! temp = Some f /\
    fs w3 !! final =
      Some (mkFile (data f) (if String.eqb (GOOS h) "windows" then mode f else 493%N)) /\
    fs w3 !! temp = None /\
    forall p, p <> temp -> p <> final -> fs w3 !! p = fs w !! p.
Proof.
  intros h temp final Hsel Hdl Hrename Hchmod.
  destruct (after_download _ _ _ _ _ Hsel Hdl) as (Hh & Hne & [f Hf] & Hoff & _).
  fold h temp final in Hh, Hne, Hf, Hoff.
  rewrite main_installed_steps. unfold bind at 1. rewrite Hsel. cbn [fst snd].
  unfold main_download, mbind, Go_bind, mret, Go_ret.
  rewrite bind_assoc. unfold bind at 1. fold h temp. rewrite Hdl.
  unfold bind at 1. unfold ret at 1.
  unfold main_place, mbind, Go_bind, mret, Go_ret.
  rewrite !bind_assoc. unfold bind at 1. fold temp final.
  rewrite (os_Rename_ok temp final w2 f Hf) by (rewrite Hh; exact Hrename).
  unfold bind at 1. unfold ret at 1.
  destruct (String.eqb_spec (GOOS h) "windows") as [Hwin | Hwin]; cbn [negb].
  - unfold bind, ret. eexists _, f. split; [reflexivity |]. simpl.
    split; [done |]. split; [rewrite lookup_insert_eq; by destruct f |]. split.
    + rewrite lookup_insert_ne by done. apply lookup_delete_eq.
    + intros p Hp Hp'. rewrite lookup_insert_ne by done.
      rewrite lookup_delete_ne by done. by apply Hoff.
  - unfold bind at 1. unfold bind at 1.
    rewrite (os_Chmod_ok final 493 _ f).
    + unfold bind, ret. eexists _, f. split; [reflexivity |]. simpl.
      split; [done |]. split; [apply lookup_insert_eq |]. split.
      * rewrite !lookup_insert_ne by done. apply lookup_delete_eq.
      * intros p Hp Hp'. rewrite !lookup_insert_ne by done.
        rewrite lookup_delete_ne by done. by apply Hoff.
    + simpl. apply lookup_insert_eq.
    + simpl. rewrite length_app. simpl. rewrite Nat.add_1_r, Hh. by apply Hchmod.
Qed.

Lemma X18_installed_in_place_witness :
  let w0 := example_world linux_host ["y" +:+ nl; "y" +:+ nl]
              [("/home/u/.solvm/solvm", mkFile "old" 493)] in
  let temp := "/home/u/.solvm/solvm-linux-amd64" in
  let final := "/home/u/.solvm/solvm" in
  let w2 := (downloadFile "U2" temp (main_selected w0).2).2 in
  exists w3 f,
    main_installed w0 = (inl "/home/u/.solvm", w3) /\
    fs w2 !! temp = Some f /\
    fs w3 !! final = Some (mkFile (data f) 493) /\
    fs w3 !! temp = None /\
    forall p, p <> temp -> p <> final -> fs w3 !! p = fs w0 !! p.
Proof.
  intros w0 temp final w2.
  apply (X18_installed_in_place w0 (main_selected w0).2 w2
           "/home/u/.solvm" (mkAsset "solvm-linux-amd64" "U2"));
    [vm_compute; reflexivity | vm_compute; reflexivity | reflexivity | reflexivity].
Defined.

(** X19: when the rename to the final name fails, the run ends with
    os.Exit(1) and cleans nothing up: the download stays at the temporary
    path, and the final path holds what it held before the run. *)
Theorem X19_rename_failure (w w1 w2 w3 : World) (installDir : string) (asset : Asset)
    (e : error) :
  let h := host w in
  let temp := tempPath h installDir asset in
  let final := finalPath h installDir in
  main_selected w = (inl (installDir, asset), w1) ->
  downloadFile (BrowserDownloadURL asset) temp w1 = (inl (Ok tt), w2) ->
  os_Rename temp final w2 = (inl (Err e), w3) ->
  exists w',
    main w = (inr 1, w') /\
    fs w' !! temp = fs w2 !! temp /\
    is_Some (fs w' !! temp) /\
    fs w' !! final = fs w !! final.
Proof.
  intros h temp final Hsel Hdl Hrename.
  destruct (after_download _ _ _ _ _ Hsel Hdl) as (Hh & Hne & Hsome & Hoff & Hsteps).
  fold h temp final in Hh, Hne, Hsome, Hoff.
  apply os_Rename_inv in Hrename as Hinv.
  destruct Hinv as [_ [(e' & _ & Hfs) | (x & ? & _)]]; [| discriminate].
  exists (log (SysPrint Red ("Error renaming file: " +:+ e)) w3).
  split.
  - rewrite main_steps_eq, Hsteps. unfold main_place, mbind, Go_bind, mret, Go_ret.
    rewrite !bind_assoc. unfold bind at 1. fold h temp final. rewrite Hrename.
    unfold bind, color, Print, os_Exit. cbn [Sprintf Ascii.eqb Bool.eqb orb].
    by rewrite append_empty_r.
  - simpl. rewrite Hfs. repeat split; [done |]. by apply Hoff.
Qed.

Lemma X19_rename_failure_witness :
  let h := example_host "linux" "amd64" [release_v120] binary_response refuse_rename in
  let w := example_world h ["y" +:+ nl] [] in
  let temp := "/home/u/.solvm/solvm-linux-amd64" in
  let final := "/home/u/.solvm/solvm" in
  let w2 := (downloadFile "U2" temp (main_selected w).2).2 in
  exists w',
    main w = (inr 1, w') /\
    fs w' !! temp = fs w2 !! temp /\
    is_Some (fs w' !! temp) /\
    fs w' !! final = None.
Proof.
  intros h w temp final w2.
  apply (X19_rename_failure w (main_selected w).2 w2 (os_Rename temp final w2).2
           "/home/u/.solvm" (mkAsset "solvm-linux-amd64" "U2") "permission denied");
    vm_compute; reflexivity.
Defined.

(** X20: when the rename has succeeded and chmod then fails (darwin,
    linux), the run ends with os.Exit(1) although the new binary is already
    in place: the final path holds the download, whatever it held before,
    and the temporary path is empty. *)
Theorem X20_chmod_failure (w w1 w2 w3 w4 : World) (installDir : string) (asset : Asset)
    (e : error) :
  let h := host w in
  let temp := tempPath h installDir asset in
  let final := finalPath h installDir in
  GOOS h <> "windows" ->
  main_selected w = (inl (installDir, asset), w1) ->
  downloadFile (BrowserDownloadURL asset) temp w1 = (inl (Ok tt), w2) ->
  os_Rename temp final w2 = (inl (Ok tt), w3) ->
  os_Chmod final 493 w3 = (inl (Err e), w4) ->
  exists w' f,
    main w = (inr 1, w') /\
    fs w2 !! temp = Some f /\
    fs w' !! final = Some f /\
    fs w' !! temp = None.
Proof.
  intros h temp final Hwin Hsel Hdl Hrename Hchmod.
  destruct (after_download _ _ _ _ _ Hsel Hdl) as (Hh & Hne & _ & _ & Hsteps).
  fold h temp final in Hh, Hne.
  apply os_Rename_inv in Hrename as Hinv.
  destruct Hinv as [_ [(e' & ? & _) | (f & _ & Hf & Hfs3)]]; [discriminate |].
  apply os_Chmod_inv in Hchmod as Hinv.
  destruct Hinv as [_ [(e' & _ & Hfs4) | (x & ? & _)]]; [| discriminate].
  exists (log (SysPrint Red ("Error setting executable permissions: " +:+ e)) w4), f.
  split.
  - rewrite main_steps_eq, Hsteps. unfold main_place, mbind, Go_bind, mret, Go_ret.
    rewrite !bind_assoc. unfold bind at 1. fold h temp final. rewrite Hrename.
    unfold bind at 1. unfold ret at 1.
    apply String.eqb_neq in Hwin. rewrite Hwin. cbn [negb].
    unfold bind at 1. unfold bind at 1. rewrite Hchmod.
    unfold bind, color, Print, os_Exit. cbn [Sprintf Ascii.eqb Bool.eqb orb].
    by rewrite append_empty_r.
  - simpl. rewrite Hfs4, Hfs3. repeat split; [done | apply lookup_insert_eq |].
    rewrite lookup_insert_ne by done. apply lookup_delete_eq.
Qed.

Lemma X20_chmod_failure_witness :
  let h := example_host "linux" "amd64" [release_v120] binary_response refuse_chmod in
  let w := example_world h ["y" +:+ nl; "y" +:+ nl]
             [("/home/u/.solvm/solvm", mkFile "old" 493)] in
  let temp := "/home/u/.solvm/solvm-linux-amd64" in
  let final := "/home/u/.solvm/solvm" in
  let w2 := (downloadFile "U2" temp (main_selected w).2).2 in
  exists w' f,
    main w = (inr 1, w') /\
    fs w2 !! temp = Some f /\
    fs w' !! final = Some f /\
    fs w' !! temp = None.
Proof.
  intros h w temp final w2.
  apply (X20_chmod_failure w (main_selected w).2 w2 (os_Rename temp final w2).2
           (os_Chmod final 493 (os_Rename temp final w2).2).2
           "/home/u/.solvm" (mkAsset "solvm-linux-amd64" "U2") "operation not permitted");
    [discriminate | vm_compute; reflexivity ..].
Defined.

(** X21: when the user declines the registration on the PATH, the run makes
    no further call but three prints (the notice and the two closing
    messages) and returns from main: the files are as the installation left
    them, the configuration of the shell included. *)
Theorem X21_registration_declined (w w1 w2 : World) (installDir : string) :
  main_installed w = (inl installDir, w1) ->
  askForConfirmation "Do you want to add SolVM to your PATH?" w1 = (inl false, w2) ->
  exists w',
    main w = (inl tt, w') /\
    fs w' = fs w1 /\
    trace w' = trace w2 ++
      [SysPrint Yellow "Skipping PATH configuration";
       SysPrint Green "Installation complete!";
       SysPrint Green "Please restart your terminal to use SolVM"].
Proof.
  intros Hinst Hask.
  apply askForConfirmation_frame in Hask as Hframe. destruct Hframe as (_ & Hfs & _).
  eexists. split.
  - rewrite main_steps_eq, main_steps_installed. unfold bind at 1. rewrite Hinst.
    unfold main_register. unfold mbind, Go_bind, mret, Go_ret.
    unfold bind at 1. rewrite Hask. cbn [negb].
    unfold bind, color, Print. reflexivity.
  - simpl. split; [done |]. by rewrite <- !app_assoc.
Qed.

Lemma X21_registration_declined_witness :
  let w := example_world linux_host ["y" +:+ nl; "" +:+ nl]
             [("/home/u/.zshrc", mkFile "# rc" 420)] in
  let w1 := (main_installed w).2 in
  let w2 := (askForConfirmation "Do you want to add SolVM to your PATH?" w1).2 in
  exists w',
    main w = (inl tt, w') /\
    fs w' = fs w1 /\
    trace w' = trace w2 ++
      [SysPrint Yellow "Skipping PATH configuration";
       SysPrint Green "Installation complete!";
       SysPrint Green "Please restart your terminal to use SolVM"].
Proof.
  intros w w1 w2.
  apply (X21_registration_declined w w1 w2 "/home/u/.solvm"); vm_compute; reflexivity.
Defined.

(** X22: main learns that the platform is not supported only after it has
    fetched the list of releases: on such a platform, once the list has been
    obtained, the run prints the error of the matcher and ends with
    os.Exit(1), having made that one request and changed no file. *)
Theorem X22_platform_checked_after_fetch (w w1 w2 w3 : World) (installDir : string)
    (release : Release) :
  GOOS (host w) ∉ supported_os \/ GOARCH (host w) ∉ supported_arch ->
  main_setup (host w) w = (inl installDir, w1) ->
  main_replace installDir w1 = (inl tt, w2) ->
  getLatestRelease w2 = (inl (Ok release), w3) ->
  exists e,
    UnsupportedPlatform (host w) e /\
    main w =
      (inr 1,
       log (SysPrint Red ("Error finding system asset: " +:+ e))
         (log (SysPrint Green ("Latest version: " +:+ TagName release)) w3)) /\
    requests (trace w3) = requests (trace w) ++ [releasesURL] /\
    fs w3 = fs w.
Proof.
  intros Hbad Hsetup Hreplace Hget.
  pose proof (keeps_main_setup _ _ _ _ Hsetup) as [Hh1 Hf1].
  pose proof (silent_main_setup _ _ _ _ Hsetup) as [_ R1].
  pose proof (keeps_main_replace _ _ _ _ Hreplace) as [Hh2 Hf2].
  pose proof (silent_main_replace _ _ _ _ Hreplace) as [_ R2].
  pose proof (keeps_getLatestRelease _ _ _ Hget) as [Hh3 Hf3].
  pose proof (getLatestRelease_world w2) as Hw3. rewrite Hget in Hw3. simpl in Hw3.
  set (w4 := log (SysPrint Green ("Latest version: " +:+ TagName release)) w3).
  destruct (getSystemAsset_unsupported w4 release) as (e & Hasset & He).
  { simpl. by replace (host w3) with (host w) by congruence. }
  exists e. split; [| split; [| split]].
  - unfold UnsupportedPlatform in *. simpl in He.
    by replace (host w3) with (host w) in He by congruence.
  - rewrite main_steps_eq. unfold main_steps. unfold mbind, Go_bind, mret, Go_ret.
    rewrite getHost_bind. unfold bind at 1. rewrite Hsetup.
    unfold bind at 1. rewrite Hreplace.
    unfold bind at 1. unfold main_select. unfold mbind, Go_bind, mret, Go_ret.
    unfold bind at 1. rewrite Hget. unfold bind at 1. unfold ret at 1.
    unfold bind at 1. unfold color at 1, Print at 1.
    cbn [Sprintf Ascii.eqb Bool.eqb orb]. rewrite append_empty_r.
    change (log (SysPrint Green _) w3) with w4.
    unfold bind. rewrite Hasset.
    unfold color, Print, os_Exit. cbn [Sprintf Ascii.eqb Bool.eqb orb].
    by rewrite append_empty_r.
  - rewrite Hw3. simpl. rewrite requests_get. congruence.
  - congruence.
Qed.

Lemma X22_platform_checked_after_fetch_witness :
  let h := example_host "linux" "riscv64" [release_v120] binary_response no_faults in
  let w := example_world h ["y" +:+ nl] [] in
  let w1 := (main_setup h w).2 in
  let w2 := (main_replace "/home/u/.solvm" w1).2 in
  let w3 := (getLatestRelease w2).2 in
  exists e,
    UnsupportedPlatform h e /\
    main w =
      (inr 1,
       log (SysPrint Red ("Error finding system asset: " +:+ e))
         (log (SysPrint Green "Latest version: v1.2.0") w3)) /\
    requests (trace w3) = [releasesURL] /\
    fs w3 = fs w.
Proof.
  intros h w w1 w2 w3.
  apply (X22_platform_checked_after_fetch w w1 w2 w3 "/home/u/.solvm" release_v120);
    [right | vm_compute; reflexivity ..].
  unfold supported_arch. rewrite !not_elem_of_cons, elem_of_nil.
  repeat split; try discriminate. tauto.
Defined.
